(** * The user lifecycle service (users.service.ts)

    A shallow embedding of [UsersService] from
    [backend/src/modules/admin/access/users/users.service.ts].

    The service is an orchestration layer: it calls the repository, the
    mapper, the hash helper and the pagination helper, and turns what
    they throw into a fixed set of HTTP exceptions.  Every method is
    written here as a computation in a small state-and-exception monad
    over a world made of
      - the JavaScript objects the service holds references to (user
        entities, which the service and its collaborators mutate in
        place),
      - the state of everything outside the service (data base, salt
        source, ...), kept abstract, and
      - the log of the calls the service made to its collaborators. *)

From stdpp Require Import base option list strings pretty gmap.
From Stdlib Require Import ZArith.

Local Open Scope Z_scope.

(** ** Thrown values *)

(** The classes the service tests with [instanceof] or constructs with
    [new].  A thrown object carries exactly one tag; an instance of a
    subclass is represented by the tag of the class the service tests
    for.  [UserExistsException] keeps the constructor argument, which is
    [undefined] ([None]) when the caller's DTO had no [username]. *)
Inductive ErrorClass : Type :=
| NotFoundException
| RequestTimeoutException
| InternalServerErrorException
| UserExistsException (username : option string)
| ForeignKeyConflictException
| InvalidCurrentPasswordException
| TimeoutError
| TypeError
| OtherError.

(** A thrown object: its class and its [code] property ([None] when the
    object has none, as for every exception the service constructs). *)
Record JsError : Type := mkError {
  err_class : ErrorClass;
  err_code : option string;
}.

#[global] Instance ErrorClass_eq_dec : EqDecision ErrorClass.
Proof. solve_decision. Defined.

#[global] Instance JsError_eq_dec : EqDecision JsError.
Proof. solve_decision. Defined.

(** [new C()] for the exception classes of the service. *)
Definition new (c : ErrorClass) : JsError := mkError c None.

(** [error instanceof C] for the two classes the handlers test. *)
Definition instanceof_NotFoundException (error : JsError) : bool :=
  match err_class error with NotFoundException => true | _ => false end.

Definition instanceof_TimeoutError (error : JsError) : bool :=
  match err_class error with TimeoutError => true | _ => false end.

(** The members of the [DBErrorCode] enum the service refers to.  The
    enum is declared in [@common/enums]; its values are parameters
    here. *)
Record DBErrorCode : Type := {
  PgUniqueConstraintViolation : string;
  PgForeignKeyConstraintViolation : string;
  PgNotNullConstraintViolation : string;
}.

(** [error.code == c] for a string constant [c]: an absent [code] is
    [undefined], which is loosely equal to no string. *)
Definition code_eq (error : JsError) (c : string) : bool :=
  match err_code error with
  | Some c' => bool_decide (c' = c)
  | None => false
  end.

(** ** Results of calls *)

(** What an awaited call, a synchronous call or a service method ends
    in: a value, or a thrown object (for an async method: a promise
    that fulfils, or one that rejects). *)
Inductive Result (A : Type) : Type :=
| Ok (a : A)
| Throw (e : JsError).
Arguments Ok {A} a.
Arguments Throw {A} e.

(** What a call whose result is not awaited at once ends in: the
    function returns (a value, or a promise that fulfils with it), throws
    while being called, or returns a promise that rejects. *)
Inductive Completion (A : Type) : Type :=
| Returns (a : A)
| ThrowsSync (e : JsError)
| Rejects (e : JsError).
Arguments Returns {A} a.
Arguments ThrowsSync {A} e.
Arguments Rejects {A} e.

(** A promise at hand, not yet awaited. *)
Inductive Promise (A : Type) : Type :=
| Fulfilled (a : A)
| RejectedWith (e : JsError).
Arguments Fulfilled {A} a.
Arguments RejectedWith {A} e.

(** ** Data *)

(** Modelled from the spec: the [UserStatus] enum of
    [user-status.enum.ts]; the statuses are Active, Blocked and further
    domain-specific ones. *)
Inductive UserStatus : Type :=
| Active
| Blocked
| OtherStatus (name : string).

#[global] Instance UserStatus_eq_dec : EqDecision UserStatus.
Proof. solve_decision. Defined.

(** Modelled from the spec: the persisted user record of
    [user.entity.ts]: id, unique username, hashed password, status, and
    links to roles and permissions. *)
Record UserEntity : Type := mkUser {
  id : string;
  username : string;
  password : string;
  status : UserStatus;
  roles : list string;
  permissions : list string;
}.

#[global] Instance UserEntity_eq_dec : EqDecision UserEntity.
Proof. solve_decision. Defined.

#[global] Instance UserEntity_inhabited : Inhabited UserEntity :=
  populate (mkUser "" "" "" Active [] []).

(** [entity.password = p] and [entity.status = s] on the record. *)
Definition with_password (p : string) (u : UserEntity) : UserEntity :=
  mkUser (id u) (username u) p (status u) (roles u) (permissions u).

Definition with_status (s : UserStatus) (u : UserEntity) : UserEntity :=
  mkUser (id u) (username u) (password u) s (roles u) (permissions u).

(** Modelled from the spec: the request DTOs of [./dtos].  Creation
    input comes in a full shape (with relations) and a simple one
    (without); the update input is partial, every field may be absent;
    a password change carries the current and the new password. *)
Record CreateUserRequestDto : Type := {
  create_username : string;
  create_password : string;
  create_roles : list string;
  create_permissions : list string;
}.

Record CreateUserBaseRequestDto : Type := {
  base_username : string;
  base_password : string;
}.

Record UpdateUserRequestDto : Type := {
  update_username : option string;
  update_status : option UserStatus;
  update_roles : option (list string);
  update_permissions : option (list string);
}.

Record ChangePasswordRequestDto : Type := {
  currentPassword : string;
  newPassword : string;
}.

(** A reference to a user entity object. *)
Abbreviation ref := positive.

(** The three ways the service calls [usersRepository.findOne]. *)
Inductive FindArg : Type :=
| FindId (id : string)                                (* findOne(id) *)
| FindIdRelations (id : string) (rels : list string)  (* findOne(id, { relations }) *)
| FindWhereId (id : string).                          (* findOne({ id }) *)

(** ** The world the service runs in *)

Section Service.

(** Shapes the service only passes along: the state outside the
    process, the page request, the page envelope and the response
    DTO. *)
Context {Ext PaginationRequest PaginationResponseDto UserResponseDto : Type}.

(** What a collaborator can read and change: the entity objects (by
    reference) and the outside state. *)
Record Mem : Type := mkMem {
  objects : gmap ref UserEntity;
  outside : Ext;
}.

(** One entry of the call log: the collaborator method, its arguments
    and what the call ended in.  [Save] also records the fields of the
    entity object at the moment it was handed over. *)
Inductive Event : Type :=
| GetUsersAndCount (pagination : PaginationRequest)
    (r : Result (option (list ref) * Z))
| FindOne (arg : FindArg) (r : Result (option ref))
| Save (entity : ref) (fields : UserEntity) (r : Result ref)
| Encrypt (plain : string) (r : Result string)
| Compare (plain hash : string) (r : Result bool)
| ToCreateEntity (dto : CreateUserRequestDto) (r : Result ref)
| ToCreateSimpleEntity (dto : CreateUserBaseRequestDto) (r : Result ref)
| ToUpdateEntity (entity : ref) (dto : UpdateUserRequestDto) (r : Result ref)
| ToDto (entity : ref) (r : Completion UserResponseDto)
| ToDtoWithRelations (entity : ref) (r : Completion UserResponseDto)
| PaginationOf (pagination : PaginationRequest) (total : Z)
    (dtos : list UserResponseDto) (r : Result PaginationResponseDto)
| LoggerError (error : JsError).

Record World : Type := mkWorld {
  mem : Mem;
  calls : list Event;
}.

(** The collaborators of the service.  Each is a parameter: a function
    of its arguments and the memory, to what the call ends in and the
    memory afterwards.
    Awaited and synchronous calls end in a [Result]; the two DTO
    mappers, whose result the service hands on without awaiting each
    call, end in a [Completion].  [Pagination.of] is the synchronous
    pagination helper. *)
Record Collaborators : Type := {
  repo_getUsersAndCount :
    PaginationRequest -> Mem -> Result (option (list ref) * Z) * Mem;
  repo_findOne : FindArg -> Mem -> Result (option ref) * Mem;
  repo_save : ref -> Mem -> Result ref * Mem;
  hash_encrypt : string -> Mem -> Result string * Mem;
  hash_compare : string -> string -> Mem -> Result bool * Mem;
  mapper_toCreateEntity : CreateUserRequestDto -> Mem -> Result ref * Mem;
  mapper_toCreateSimpleEntity :
    CreateUserBaseRequestDto -> Mem -> Result ref * Mem;
  mapper_toUpdateEntity :
    ref -> UpdateUserRequestDto -> Mem -> Result ref * Mem;
  mapper_toDto : ref -> Mem -> Completion UserResponseDto * Mem;
  mapper_toDtoWithRelations : ref -> Mem -> Completion UserResponseDto * Mem;
  pagination_of :
    PaginationRequest -> Z -> list UserResponseDto -> Mem ->
    Result PaginationResponseDto * Mem;
}.

(** ** The monad of service code *)

Definition M (A : Type) : Type := World -> Result A * World.

Definition ret {A} (a : A) : M A := fun w => (Ok a, w).

Definition throw {A} (e : JsError) : M A := fun w => (Throw e, w).

Definition bind {A B} (c : M A) (k : A -> M B) : M B :=
  fun w =>
    match c w with
    | (Ok a, w') => k a w'
    | (Throw e, w') => (Throw e, w')
    end.

(** [try { body } catch (error) { handler }]: what the body did to the
    world before it threw stays done. *)
Definition try_catch {A} (body : M A) (handler : JsError -> M A) : M A :=
  fun w =>
    match body w with
    | (Ok a, w') => (Ok a, w')
    | (Throw e, w') => handler e w'
    end.

(** A collaborator call: run it on the memory and log it. *)
Definition call {R} (f : Mem -> R * Mem) (ev : R -> Event) : World -> R * World :=
  fun w =>
    let '(r, m) := f (mem w) in
    (r, mkWorld m (calls w ++ [ev r])).

(** A call whose result is kept as it is, to be looked at later. *)
Definition call_completion {A} (f : Mem -> Completion A * Mem)
    (ev : Completion A -> Event) : M (Completion A) :=
  fun w => let '(c, w') := call f ev w in (Ok c, w').

(** [return f(x)] inside [try] in an async method: a throw during the
    call is caught by the enclosing handler; a promise is handed to the
    caller as it is, so its rejection is not. *)
Definition return_call {A} (c : M (Completion A)) : M (Promise A) :=
  bind c (fun r =>
    match r with
    | Returns a => ret (Fulfilled a)
    | ThrowsSync e => throw e
    | Rejects e => ret (RejectedWith e)
    end).

(** The promise of an async method whose body returned [p]. *)
Definition async {A} (body : M (Promise A)) : M A :=
  bind body (fun p =>
    match p with
    | Fulfilled a => ret a
    | RejectedWith e => throw e
    end).

(** [entity.password], [entity.password = p], [entity.status = s]. *)
Definition get_password (entity : ref) : M string :=
  fun w => (Ok (password (objects (mem w) !!! entity)), w).

Definition update_object (f : UserEntity -> UserEntity) (entity : ref) : M unit :=
  fun w =>
    let o := objects (mem w) in
    (Ok tt, mkWorld (mkMem (<[entity := f (o !!! entity)]> o) (outside (mem w)))
                    (calls w)).

Definition set_password (entity : ref) (p : string) : M unit :=
  update_object (with_password p) entity.

Definition set_status (entity : ref) (s : UserStatus) : M unit :=
  update_object (with_status s) entity.

Notation "'let*' x ':=' c 'in' k" := (bind c (fun x => k))
  (at level 10, x pattern, c at level 100, k at level 200).
Notation "c ';;;' k" := (bind c (fun _ => k))
  (at level 100, k at level 200, right associativity).

(** ** The service *)

Variable C : Collaborators.
Variable codes : DBErrorCode.

(** The collaborators as the service calls them: each call is logged. *)
Definition usersRepository_getUsersAndCount (pagination : PaginationRequest)
    : M (option (list ref) * Z) :=
  call (repo_getUsersAndCount C pagination) (GetUsersAndCount pagination).

Definition usersRepository_findOne (arg : FindArg) : M (option ref) :=
  call (repo_findOne C arg) (FindOne arg).

Definition usersRepository_save (entity : ref) : M ref :=
  fun w =>
    call (repo_save C entity) (Save entity (objects (mem w) !!! entity)) w.

Definition HashHelper_encrypt (plain : string) : M string :=
  call (hash_encrypt C plain) (Encrypt plain).

Definition HashHelper_compare (plain hash : string) : M bool :=
  call (hash_compare C plain hash) (Compare plain hash).

Definition UserMapper_toCreateEntity (dto : CreateUserRequestDto) : M ref :=
  call (mapper_toCreateEntity C dto) (ToCreateEntity dto).

Definition UserMapper_toCreateSimpleEntity (dto : CreateUserBaseRequestDto)
    : M ref :=
  call (mapper_toCreateSimpleEntity C dto) (ToCreateSimpleEntity dto).

Definition UserMapper_toUpdateEntity (entity : ref) (dto : UpdateUserRequestDto)
    : M ref :=
  call (mapper_toUpdateEntity C entity dto) (ToUpdateEntity entity dto).

Definition UserMapper_toDto (entity : ref) : M (Completion UserResponseDto) :=
  call_completion (mapper_toDto C entity) (ToDto entity).

Definition UserMapper_toDtoWithRelations (entity : ref)
    : M (Completion UserResponseDto) :=
  call_completion (mapper_toDtoWithRelations C entity) (ToDtoWithRelations entity).

Definition Pagination_of (pagination : PaginationRequest) (total : Z)
    (dtos : list UserResponseDto) : M PaginationResponseDto :=
  call (pagination_of C pagination total dtos) (PaginationOf pagination total dtos).

Definition Logger_error (error : JsError) : M unit :=
  fun w => (Ok tt, mkWorld (mem w) (calls w ++ [LoggerError error])).

(** [entities.map(f)]: [f] is called on the elements from left to right;
    a throw during one call ends the loop, a returned promise is kept,
    rejected or not, and the loop goes on. *)
Fixpoint Array_map {A} (f : ref -> M (Completion A)) (entities : list ref)
    : M (list (Promise A)) :=
  match entities with
  | [] => ret []
  | entity :: rest =>
      let* c := f entity in
      match c with
      | Returns a => let* ps := Array_map f rest in ret (Fulfilled a :: ps)
      | ThrowsSync e => throw e
      | Rejects e => let* ps := Array_map f rest in ret (RejectedWith e :: ps)
      end
  end.

(** [await Promise.all(promises)]: the values in the order of the
    promises, or a rejection.  Each mapper call is taken to run to its
    end before the next starts, so the rejection that settles first is
    the leftmost one. *)
Fixpoint Promise_all {A} (promises : list (Promise A)) : Result (list A) :=
  match promises with
  | [] => Ok []
  | Fulfilled a :: rest =>
      match Promise_all rest with
      | Ok l => Ok (a :: l)
      | Throw e => Throw e
      end
  | RejectedWith e :: _ => Throw e
  end.

Definition await_all {A} (promises : list (Promise A)) : M (list A) :=
  fun w => (Promise_all promises, w).

(** [!userEntities?.length] *)
Definition no_length (userEntities : option (list ref)) : bool :=
  match userEntities with
  | None => true
  | Some l => bool_decide (length l = 0%nat)
  end.

(** The [catch] block of [getUsers] (lines 59-68). *)
Definition getUsers_catch {A} (error : JsError) : M A :=
  if instanceof_NotFoundException error then throw (new NotFoundException)
  else if instanceof_TimeoutError error then throw (new RequestTimeoutException)
  else throw (new InternalServerErrorException).

(** [getUsers] (lines 43-69). *)
Definition getUsers (pagination : PaginationRequest) : M PaginationResponseDto :=
  try_catch
    (let* (userEntities, totalUsers) :=
       usersRepository_getUsersAndCount pagination in
     if no_length userEntities || (totalUsers =? 0) then
       throw (new NotFoundException)
     else
       match userEntities with
       | None => throw (new TypeError)
       | Some userEntities =>
           let* promises :=
             Array_map UserMapper_toDtoWithRelations userEntities in
           let* UserDtos := await_all promises in
           Pagination_of pagination totalUsers UserDtos
       end)
    getUsers_catch.

(** [getUserById] (lines 76-85); nothing here is inside a [try]. *)
Definition getUserById (id : string) : M UserResponseDto :=
  let* userEntity :=
    usersRepository_findOne (FindIdRelations id ["permissions"; "roles"]) in
  match userEntity with
  | None => throw (new NotFoundException)
  | Some userEntity =>
      let* c := UserMapper_toDtoWithRelations userEntity in
      match c with
      | Returns dto => ret dto
      | ThrowsSync e => throw e
      | Rejects e => throw e
      end
  end.

(** The [catch] block shared, up to the name passed to
    [UserExistsException], by [createUser] (lines 100-115) and
    [updateUser] (lines 169-184). *)
Definition create_catch {A} (username : option string) (error : JsError) : M A :=
  if code_eq error (PgUniqueConstraintViolation codes) then
    throw (new (UserExistsException username))
  else if code_eq error (PgForeignKeyConstraintViolation codes)
          || code_eq error (PgNotNullConstraintViolation codes) then
    throw (new ForeignKeyConflictException)
  else if instanceof_TimeoutError error then
    throw (new RequestTimeoutException)
  else
    throw (new InternalServerErrorException).

(** The [catch] block of [createUserBase] (lines 131-147): as above,
    with a [Logger.error] before the foreign-key conflict. *)
Definition createUserBase_catch {A} (username : option string) (error : JsError)
    : M A :=
  if code_eq error (PgUniqueConstraintViolation codes) then
    throw (new (UserExistsException username))
  else if code_eq error (PgForeignKeyConstraintViolation codes)
          || code_eq error (PgNotNullConstraintViolation codes) then
    Logger_error error ;;;
    throw (new ForeignKeyConflictException)
  else if instanceof_TimeoutError error then
    throw (new RequestTimeoutException)
  else
    throw (new InternalServerErrorException).

(** [createUser] (lines 92-116). *)
Definition createUser (userDto : CreateUserRequestDto) : M UserResponseDto :=
  async (try_catch
    (let* userEntity := UserMapper_toCreateEntity userDto in
     let* plain := get_password userEntity in
     let* hash := HashHelper_encrypt plain in
     set_password userEntity hash ;;;
     let* userEntity := usersRepository_save userEntity in
     return_call (UserMapper_toDto userEntity))
    (create_catch (Some (create_username userDto)))).

(** [createUserBase] (lines 123-148). *)
Definition createUserBase (userDto : CreateUserBaseRequestDto) : M UserResponseDto :=
  async (try_catch
    (let* userEntity := UserMapper_toCreateSimpleEntity userDto in
     let* plain := get_password userEntity in
     let* hash := HashHelper_encrypt plain in
     set_password userEntity hash ;;;
     let* userEntity := usersRepository_save userEntity in
     return_call (UserMapper_toDto userEntity))
    (createUserBase_catch (Some (base_username userDto)))).

(** [updateUser] (lines 156-185). *)
Definition updateUser (id : string) (userDto : UpdateUserRequestDto)
    : M UserResponseDto :=
  let* userEntity := usersRepository_findOne (FindId id) in
  match userEntity with
  | None => throw (new NotFoundException)
  | Some userEntity =>
      async (try_catch
        (let* userEntity := UserMapper_toUpdateEntity userEntity userDto in
         let* userEntity := usersRepository_save userEntity in
         return_call (UserMapper_toDto userEntity))
        (create_catch (update_username userDto)))
  end.

(** The [catch] block of [changePassword] (lines 218-224) and of
    [blockUser] (lines 233-239). *)
Definition timeout_catch {A} (error : JsError) : M A :=
  if instanceof_TimeoutError error then throw (new RequestTimeoutException)
  else throw (new InternalServerErrorException).

(** [changePassword] (lines 193-225). *)
Definition changePassword (changePassword : ChangePasswordRequestDto)
    (userId : string) : M UserResponseDto :=
  let* userEntity := usersRepository_findOne (FindWhereId userId) in
  match userEntity with
  | None => throw (new NotFoundException)
  | Some userEntity =>
      let* stored := get_password userEntity in
      let* passwordMatch :=
        HashHelper_compare (currentPassword changePassword) stored in
      if negb passwordMatch then
        throw (new InvalidCurrentPasswordException)
      else
        async (try_catch
          (let* hash := HashHelper_encrypt (newPassword changePassword) in
           set_password userEntity hash ;;;
           usersRepository_save userEntity ;;;
           return_call (UserMapper_toDto userEntity))
          timeout_catch)
  end.

(** [blockUser] (lines 227-240).  The result of [findOne] is used
    without a test: writing a property of [undefined] throws a
    [TypeError], and that statement stands before the [try]. *)
Definition blockUser (id : string) : M UserResponseDto :=
  let* userEntity := usersRepository_findOne (FindId id) in
  match userEntity with
  | None => throw (mkError TypeError None)
  | Some userEntity =>
      set_status userEntity Blocked ;;;
      async (try_catch
        (usersRepository_save userEntity ;;;
         return_call (UserMapper_toDto userEntity))
        timeout_catch)
  end.

End Service.

Arguments Mem : clear implicits.
Arguments Event : clear implicits.
Arguments World : clear implicits.
Arguments Collaborators : clear implicits.
Arguments M : clear implicits.

(** ** An in-memory set of collaborators

    A small executable stand-in for the repository, the mapper, the hash
    helper and the pagination helper, to run the service on concrete
    requests. *)

Module InMemory.

(** The table of users and the next free object reference. *)
Record Db : Type := mkDb {
  table : list UserEntity;
  next_ref : ref;
}.

Record PageRequest : Type := mkPageRequest {
  skip : nat;
  limit : nat;
}.

Record UserDto : Type := mkDto {
  dto_id : string;
  dto_username : string;
  dto_status : UserStatus;
  dto_roles : list string;
  dto_permissions : list string;
}.

Record Page : Type := mkPage {
  page_request : PageRequest;
  totalRecords : Z;
  content : list UserDto;
}.

Abbreviation Memory := (Mem Db).
Abbreviation Call := (Event PageRequest Page UserDto).
Abbreviation State := (World Db PageRequest Page UserDto).
Abbreviation Service := (Collaborators Db PageRequest Page UserDto).

(** Put a new object on the heap. *)
Definition alloc (u : UserEntity) (m : Memory) : ref * Memory :=
  let r := next_ref (outside m) in
  (r, mkMem (<[r := u]> (objects m))
            (mkDb (table (outside m)) (Pos.succ r))).

Fixpoint alloc_all (us : list UserEntity) (m : Memory) : list ref * Memory :=
  match us with
  | [] => ([], m)
  | u :: rest =>
      let '(r, m1) := alloc u m in
      let '(rs, m2) := alloc_all rest m1 in
      (r :: rs, m2)
  end.

Definition find_by_id (i : string) (t : list UserEntity) : option UserEntity :=
  List.find (fun u => bool_decide (id u = i)) t.

Definition find_id (arg : FindArg) : string :=
  match arg with
  | FindId i => i
  | FindIdRelations i _ => i
  | FindWhereId i => i
  end.

Definition findOne (arg : FindArg) (m : Memory) : Result (option ref) * Memory :=
  match find_by_id (find_id arg) (table (outside m)) with
  | None => (Ok None, m)
  | Some u => let '(r, m') := alloc u m in (Ok (Some r), m')
  end.

Definition getUsersAndCount (p : PageRequest) (m : Memory)
    : Result (option (list ref) * Z) * Memory :=
  let t := table (outside m) in
  let '(rs, m') := alloc_all (take (limit p) (drop (skip p) t)) m in
  (Ok (Some rs, Z.of_nat (length t)), m').

(** Insert or update by id. *)
Fixpoint upsert (u : UserEntity) (t : list UserEntity) : list UserEntity :=
  match t with
  | [] => [u]
  | v :: rest => if bool_decide (id v = id u) then u :: rest else v :: upsert u rest
  end.

Definition username_taken (u : UserEntity) (t : list UserEntity) : bool :=
  existsb (fun v => bool_decide (username v = username u)
                    && negb (bool_decide (id v = id u))) t.

(** The error a PostgreSQL driver reports for a duplicate key. *)
Definition unique_violation : JsError := mkError OtherError (Some "23505").

(** The id the table gives to its next row. *)
Definition fresh_id (t : list UserEntity) : string :=
  String.append "U" (pretty (S (length t))).

Definition with_id (i : string) (u : UserEntity) : UserEntity :=
  mkUser i (username u) (password u) (status u) (roles u) (permissions u).

(** [save]: rejects a second user of the same name; gives an entity
    without id a fresh one, written into the object; stores the fields
    of the object and returns the object it was given. *)
Definition save (entity : ref) (m : Memory) : Result ref * Memory :=
  let u := objects m !!! entity in
  let t := table (outside m) in
  if username_taken u t then (Throw unique_violation, m)
  else
    let u' := if bool_decide (id u = "") then with_id (fresh_id t) u else u in
    (Ok entity,
     mkMem (<[entity := u']> (objects m))
           (mkDb (upsert u' t) (next_ref (outside m)))).

(** A [save] that answers with a new object, read back from the table
    with the default role the data base adds. *)
Definition save_reloading (entity : ref) (m : Memory) : Result ref * Memory :=
  match save entity m with
  | (Ok _, m1) =>
      let u := objects m1 !!! entity in
      let '(r, m2) :=
        alloc (mkUser (id u) (username u) (password u) (status u)
                      ("user" :: roles u) (permissions u)) m1 in
      (Ok r, m2)
  | (Throw e, m1) => (Throw e, m1)
  end.

Definition encrypt (plain : string) (m : Memory) : Result string * Memory :=
  (Ok (String.append "hash:" plain), m).

Definition compare (plain hash : string) (m : Memory) : Result bool * Memory :=
  (Ok (bool_decide (hash = String.append "hash:" plain)), m).

(** The create mappers leave the id to the table. *)
Definition toCreateEntity (dto : CreateUserRequestDto) (m : Memory)
    : Result ref * Memory :=
  let '(r, m') :=
    alloc (mkUser "" (create_username dto) (create_password dto) Active
                  (create_roles dto) (create_permissions dto)) m in
  (Ok r, m').

Definition toCreateSimpleEntity (dto : CreateUserBaseRequestDto) (m : Memory)
    : Result ref * Memory :=
  let '(r, m') :=
    alloc (mkUser "" (base_username dto) (base_password dto) Active [] []) m in
  (Ok r, m').

(** The update merge: fields present in the DTO overwrite, the others
    stay; the object is changed in place and returned. *)
Definition merge (dto : UpdateUserRequestDto) (u : UserEntity) : UserEntity :=
  mkUser (id u)
         (default (username u) (update_username dto))
         (password u)
         (default (status u) (update_status dto))
         (default (roles u) (update_roles dto))
         (default (permissions u) (update_permissions dto)).

Definition toUpdateEntity (entity : ref) (dto : UpdateUserRequestDto) (m : Memory)
    : Result ref * Memory :=
  (Ok entity,
   mkMem (<[entity := merge dto (objects m !!! entity)]> (objects m)) (outside m)).

Definition dto_of (u : UserEntity) : UserDto :=
  mkDto (id u) (username u) (status u) (roles u) (permissions u).

Definition toDto (entity : ref) (m : Memory) : Completion UserDto * Memory :=
  (Returns (dto_of (objects m !!! entity)), m).

Definition page_of (p : PageRequest) (total : Z) (dtos : list UserDto) (m : Memory)
    : Result Page * Memory :=
  (Ok (mkPage p total dtos), m).

Definition service : Service := {|
  repo_getUsersAndCount := getUsersAndCount;
  repo_findOne := findOne;
  repo_save := save;
  hash_encrypt := encrypt;
  hash_compare := compare;
  mapper_toCreateEntity := toCreateEntity;
  mapper_toCreateSimpleEntity := toCreateSimpleEntity;
  mapper_toUpdateEntity := toUpdateEntity;
  mapper_toDto := toDto;
  mapper_toDtoWithRelations := toDto;
  pagination_of := page_of;
|}.

(** The same collaborators with another [save]. *)
Definition with_save (s : ref -> Memory -> Result ref * Memory) (c : Service)
    : Service := {|
  repo_getUsersAndCount := repo_getUsersAndCount c;
  repo_findOne := repo_findOne c;
  repo_save := s;
  hash_encrypt := hash_encrypt c;
  hash_compare := hash_compare c;
  mapper_toCreateEntity := mapper_toCreateEntity c;
  mapper_toCreateSimpleEntity := mapper_toCreateSimpleEntity c;
  mapper_toUpdateEntity := mapper_toUpdateEntity c;
  mapper_toDto := mapper_toDto c;
  mapper_toDtoWithRelations := mapper_toDtoWithRelations c;
  pagination_of := pagination_of c;
|}.

(** The PostgreSQL error codes. *)
Definition pg : DBErrorCode := {|
  PgUniqueConstraintViolation := "23505";
  PgForeignKeyConstraintViolation := "23503";
  PgNotNullConstraintViolation := "23502";
|}.

Definition alice : UserEntity :=
  mkUser "U1" "alice" "hash:p@ss1" Active ["admin"] ["users.read"].

Definition bob : UserEntity :=
  mkUser "U2" "bob" "hash:hunter2" Active [] [].

Definition world_of (t : list UserEntity) : State :=
  mkWorld (mkMem ∅ (mkDb t 1%positive)) [].

Definition empty_world : State := world_of [].
Definition two_users : State := world_of [alice; bob].

(** A [save] that hits a unique index, and a page query that times
    out. *)
Definition conflicting_save (entity : ref) (m : Memory) : Result ref * Memory :=
  (Throw unique_violation, m).

Definition timeout_error : JsError := mkError TimeoutError None.

Definition with_getUsersAndCount
    (q : PageRequest -> Memory -> Result (option (list ref) * Z) * Memory)
    (c : Service) : Service := {|
  repo_getUsersAndCount := q;
  repo_findOne := repo_findOne c;
  repo_save := repo_save c;
  hash_encrypt := hash_encrypt c;
  hash_compare := hash_compare c;
  mapper_toCreateEntity := mapper_toCreateEntity c;
  mapper_toCreateSimpleEntity := mapper_toCreateSimpleEntity c;
  mapper_toUpdateEntity := mapper_toUpdateEntity c;
  mapper_toDto := mapper_toDto c;
  mapper_toDtoWithRelations := mapper_toDtoWithRelations c;
  pagination_of := pagination_of c;
|}.

Definition timing_out : Service :=
  with_getUsersAndCount (fun _ m => (Throw timeout_error, m)) service.

(** Requests. *)
Definition first_page : PageRequest := mkPageRequest 0 10.

Definition new_alice : CreateUserRequestDto := {|
  create_username := "alice";
  create_password := "p@ss1";
  create_roles := [];
  create_permissions := [];
|}.

Definition new_alice_base : CreateUserBaseRequestDto := {|
  base_username := "alice";
  base_password := "p@ss1";
|}.

Definition wrong_current : ChangePasswordRequestDto := {|
  currentPassword := "wrong";
  newPassword := "n3w";
|}.

Definition right_current : ChangePasswordRequestDto := {|
  currentPassword := "p@ss1";
  newPassword := "n3w";
|}.

(** What the mapper and the hash helper make of [new_alice], and the
    DTO of that user read back by [save_reloading]. *)
Definition created_alice : UserEntity :=
  mkUser "" "alice" "hash:p@ss1" Active [] [].

Definition reloaded_alice_dto : UserDto :=
  mkDto "U1" "alice" Active ["user"] [].

Definition block_only : UpdateUserRequestDto := {|
  update_username := None;
  update_status := Some Blocked;
  update_roles := None;
  update_permissions := None;
|}.

End InMemory.

(** ** Reading the call log *)

Section Log.

Context {Ext PaginationRequest PaginationResponseDto UserResponseDto : Type}.

Abbreviation World := (World Ext PaginationRequest PaginationResponseDto UserResponseDto).
Abbreviation M := (M Ext PaginationRequest PaginationResponseDto UserResponseDto).
Abbreviation Event := (Event PaginationRequest PaginationResponseDto UserResponseDto).

(** The calls a computation made when started in [w], oldest first. *)
Definition issued {A} (c : M A) (w : World) : list Event :=
  drop (length (calls w)) (calls (snd (c w))).

(** What a logged mapper call ended in, for the promise [Array_map] kept. *)
Definition settled {A} (p : Promise A) : Completion A :=
  match p with
  | Fulfilled a => Returns a
  | RejectedWith e => Rejects e
  end.

(** The thrown object of a logged call that failed. *)
Definition failure (ev : Event) : option JsError :=
  match ev with
  | GetUsersAndCount _ (Throw e) | FindOne _ (Throw e) | Save _ _ (Throw e)
  | Encrypt _ (Throw e) | Compare _ _ (Throw e)
  | ToCreateEntity _ (Throw e) | ToCreateSimpleEntity _ (Throw e)
  | ToUpdateEntity _ _ (Throw e) | PaginationOf _ _ _ (Throw e)
  | ToDto _ (ThrowsSync e) | ToDto _ (Rejects e)
  | ToDtoWithRelations _ (ThrowsSync e) | ToDtoWithRelations _ (Rejects e) =>
      Some e
  | _ => None
  end.

(** How the specification has a failure of [getUsers] surface: a
    NotFound stays a NotFound, a timeout becomes RequestTimeout, anything
    else InternalError. *)
Definition surfaces_as (cause x : JsError) : Prop :=
  (err_class cause = NotFoundException -> x = new NotFoundException)
  /\ (err_class cause = TimeoutError -> x = new RequestTimeoutException)
  /\ (err_class cause <> NotFoundException -> err_class cause <> TimeoutError ->
      x = new InternalServerErrorException).

(** The log entries of [entities.map(toDtoWithRelations)] when no call
    threw: one per entity, in order. *)
Definition mapped (entities : list ref) (promises : list (Promise UserResponseDto))
    : list Event :=
  zip_with (fun entity p => ToDtoWithRelations entity (settled p))
    entities promises.

(** The runs of [getUsers], by the step that ended them: the call log
    and the outcome. *)
Inductive getUsers_run (pagination : PaginationRequest)
    : list Event -> Result PaginationResponseDto -> Prop :=
| run_fetch_failed e x :
    surfaces_as e x ->
    getUsers_run pagination [GetUsersAndCount pagination (Throw e)] (Throw x)
| run_empty userEntities totalUsers :
    userEntities = None \/ userEntities = Some [] \/ totalUsers = 0 ->
    getUsers_run pagination
      [GetUsersAndCount pagination (Ok (userEntities, totalUsers))]
      (Throw (new NotFoundException))
| run_mapper_threw userEntities totalUsers promises entity e x :
    surfaces_as e x ->
    getUsers_run pagination
      (GetUsersAndCount pagination (Ok (Some userEntities, totalUsers))
       :: mapped userEntities promises
       ++ [ToDtoWithRelations entity (ThrowsSync e)])
      (Throw x)
| run_mapper_rejected userEntities totalUsers promises e x :
    length promises = length userEntities ->
    RejectedWith e ∈ promises ->
    surfaces_as e x ->
    getUsers_run pagination
      (GetUsersAndCount pagination (Ok (Some userEntities, totalUsers))
       :: mapped userEntities promises)
      (Throw x)
| run_envelope_failed userEntities totalUsers UserDtos e x :
    length UserDtos = length userEntities ->
    surfaces_as e x ->
    getUsers_run pagination
      (GetUsersAndCount pagination (Ok (Some userEntities, totalUsers))
       :: mapped userEntities (Fulfilled <$> UserDtos)
       ++ [PaginationOf pagination totalUsers UserDtos (Throw e)])
      (Throw x)
| run_page userEntities totalUsers UserDtos page :
    userEntities <> [] -> totalUsers <> 0 ->
    length UserDtos = length userEntities ->
    getUsers_run pagination
      (GetUsersAndCount pagination (Ok (Some userEntities, totalUsers))
       :: mapped userEntities (Fulfilled <$> UserDtos)
       ++ [PaginationOf pagination totalUsers UserDtos (Ok page)])
      (Ok page).

(** What a computation ended in when started in [w]. *)
Definition outcome {A} (c : M A) (w : World) : Result A := fst (c w).

End Log.

(** ** Questions about a call log *)

Section LogQueries.

Context {PaginationRequest PaginationResponseDto UserResponseDto : Type}.

Abbreviation Event := (Event PaginationRequest PaginationResponseDto UserResponseDto).

(** Calls of [usersRepository.save], of [HashHelper], of [Logger.error]. *)
Definition is_Save (ev : Event) : bool :=
  match ev with
  | Save _ _ _ => true
  | _ => false
  end.

Definition is_HashHelper (ev : Event) : bool :=
  match ev with
  | Encrypt _ _ | Compare _ _ _ => true
  | _ => false
  end.

Definition is_LoggerError (ev : Event) : bool :=
  match ev with
  | LoggerError _ => true
  | _ => false
  end.

(** How often [save] was called. *)
Definition saves (log : list Event) : nat := length (List.filter is_Save log).

End LogQueries.

(** What the [catch] block of [changePassword] and [blockUser] makes of a
    thrown object. *)
Definition timeout_or_internal (e : JsError) : JsError :=
  if instanceof_TimeoutError e then new RequestTimeoutException
  else new InternalServerErrorException.

(** * The Vite plugin list (build/vite/plugins/index.ts) *)

Module VitePlugins.

(** A plugin of the list, as the call that made it: the factory and the
    options it was given.  [configVisualizerConfig] stands for whatever
    that function of [./visualizer] returns. *)
Inductive Plugin : Type :=
| vue (customElement : string)
| vueJsx
| html (title : string) (css js : list string) (minify : bool)
| VitePWA (registerType : string)
| configVisualizerConfig
| viteMockServe (mockPath : string) (localEnabled prodEnabled : bool)
    (injectCode : string).

#[global] Instance Plugin_eq_dec : EqDecision Plugin.
Proof. solve_decision. Defined.

(** [s.endsWith(suffix)] *)
Definition endsWith (s suffix : string) : bool :=
  let n := String.length s in
  let k := String.length suffix in
  (k <=? n)%nat && bool_decide (String.substring (n - k) k s = suffix).

(** A value spliced into a template literal: a missing one reads
    [undefined]. *)
Definition spliced (v : option string) : string := default "undefined" v.

Definition newline : string := String (Ascii.ascii_of_nat 10) "".

(** The [injectCode] template literal of the mock plugin (lines 56-59). *)
Definition injectCode_literal : string :=
  newline
  +:+ "        import { setupProdMockServer } from '../mock/_createProductionServer';"
  +:+ newline
  +:+ "        setupProdMockServer();"
  +:+ newline
  +:+ "        ".

(** [createVitePlugins] (lines 9-64); [env] is the record of environment
    variables, in which a name may be missing. *)
Definition createVitePlugins (env : gmap string string) (command mode : string)
    : list Plugin :=
  let isBuild := bool_decide (command = "build") in
  let isServe := bool_decide (command = "serve") in
  let isMock := endsWith mode "mock" in
  let fontIconUUID := env !! "VITE_FONTICONUUID" in
  let commonCss : list string := [] in
  let commonJs :=
    ["https://at.alicdn.com/t/" +:+ spliced fontIconUUID +:+ ".js"] in
  let prodMock := true in
  let vitePlugins :=
    [vue "Diff"; vueJsx; html "爱线索分享" commonCss commonJs true] in
  let vitePlugins :=
    if isBuild then (vitePlugins ++ [VitePWA "autoUpdate"]) ++ [configVisualizerConfig]
    else vitePlugins in
  let vitePlugins :=
    if isMock then
      vitePlugins ++
      [viteMockServe "mock"
         (negb isBuild && bool_decide (env !! "VITE_USE_MOCK" = Some "true"))
         (isBuild && prodMock)
         injectCode_literal]
    else vitePlugins in
  vitePlugins.

End VitePlugins.

(** ** Collaborators that fail on demand *)

Module Faulty.

Import InMemory.

(** The in-memory collaborators, with [findOne], [compare], [encrypt] or
    [save] throwing the given error instead of answering. *)
Definition faulty (findOne_fault compare_fault encrypt_fault save_fault
    : option JsError) : Service := {|
  repo_getUsersAndCount := getUsersAndCount;
  repo_findOne := fun arg m =>
    match findOne_fault with
    | Some e => (Throw e, m)
    | None => findOne arg m
    end;
  repo_save := fun entity m =>
    match save_fault with
    | Some e => (Throw e, m)
    | None => save entity m
    end;
  hash_encrypt := fun plain m =>
    match encrypt_fault with
    | Some e => (Throw e, m)
    | None => encrypt plain m
    end;
  hash_compare := fun plain hash m =>
    match compare_fault with
    | Some e => (Throw e, m)
    | None => compare plain hash m
    end;
  mapper_toCreateEntity := toCreateEntity;
  mapper_toCreateSimpleEntity := toCreateSimpleEntity;
  mapper_toUpdateEntity := toUpdateEntity;
  mapper_toDto := toDto;
  mapper_toDtoWithRelations := toDto;
  pagination_of := page_of;
|}.

Definition findOne_fails (e : JsError) : Service := faulty (Some e) None None None.
Definition compare_fails (e : JsError) : Service := faulty None (Some e) None None.
Definition encrypt_fails (e : JsError) : Service := faulty None None (Some e) None.
Definition save_fails (e : JsError) : Service := faulty None None None (Some e).

(** The error a PostgreSQL driver reports for a dangling foreign key, and
    an error of no known kind. *)
Definition foreign_key_violation : JsError := mkError OtherError (Some "23503").
Definition other_error : JsError := mkError OtherError None.

End Faulty.

(** ** Assignments *)

Section Assignments.

Context {Ext : Type}.

(** The memory after [entity.field = value], [f] being the change of
    the field on the object [entity] refers to. *)
Definition assigned (f : UserEntity -> UserEntity) (entity : ref) (m : Mem Ext)
    : Mem Ext :=
  mkMem (<[entity := f (objects m !!! entity)]> (objects m)) (outside m).

End Assignments.

(** * Properties *)

Section Properties.

Context {Ext PaginationRequest PaginationResponseDto UserResponseDto : Type}.
Variable C : Collaborators Ext PaginationRequest PaginationResponseDto UserResponseDto.
Variable codes : DBErrorCode.

Abbreviation World := (World Ext PaginationRequest PaginationResponseDto UserResponseDto).
Abbreviation Event := (Event PaginationRequest PaginationResponseDto UserResponseDto).

Implicit Types (w : World) (m : Mem Ext) (entity : ref) (e : JsError).

(** C1. [changePassword] on a user that exists, with a current password
    that does not verify against the stored hash: the method rejects
    with [InvalidCurrentPasswordException]; the only calls made are the
    [findOne] and the [compare] (no [encrypt], no [save]); the memory is
    as those two calls left it; and the exception is the one thrown, not
    the [InternalServerErrorException] the [catch] block of the method
    would have made of it. *)
Theorem changePassword_wrong_current_password
    (req : ChangePasswordRequestDto) (userId : string) w entity m1 m2 :
  repo_findOne C (FindWhereId userId) (mem w) = (Ok (Some entity), m1) ->
  hash_compare C (currentPassword req) (password (objects m1 !!! entity)) m1
    = (Ok false, m2) ->
  changePassword C req userId w
    = (Throw (new InvalidCurrentPasswordException),
       mkWorld m2
         (calls w ++
            [FindOne (FindWhereId userId) (Ok (Some entity));
             Compare (currentPassword req) (password (objects m1 !!! entity))
               (Ok false)]))
  /\ outcome (timeout_catch (A := UserResponseDto)
               (new InvalidCurrentPasswordException)) w
     = Throw (new InternalServerErrorException).
Proof.
  intros Hfind Hcompare. split; [|reflexivity].
  unfold changePassword, usersRepository_findOne, HashHelper_compare,
    get_password, bind, call.
  rewrite Hfind. cbn. rewrite Hcompare. cbn.
  by rewrite <- app_assoc.
Qed.

(** C6. [blockUser] on an id for which [findOne] finds nothing: there is
    no not-found test, the assignment of the status to the absent
    entity throws, and the method rejects with that raw [TypeError]:
    not with [NotFoundException], and not with a DTO.  The statement
    stands before the [try], so the error is not translated either, and
    nothing is saved. *)
Theorem blockUser_missing_user (userId : string) w m1 :
  repo_findOne C (FindId userId) (mem w) = (Ok None, m1) ->
  blockUser C userId w
    = (Throw (mkError TypeError None),
       mkWorld m1 (calls w ++ [FindOne (FindId userId) (Ok None)]))
  /\ outcome (blockUser C userId) w <> Throw (new NotFoundException)
  /\ (forall dto, outcome (blockUser C userId) w <> Ok dto).
Proof.
  intros Hfind.
  assert (blockUser C userId w
    = (Throw (mkError TypeError None),
       mkWorld m1 (calls w ++ [FindOne (FindId userId) (Ok None)]))) as Hrun.
  { unfold blockUser, usersRepository_findOne, bind, call.
    by rewrite Hfind. }
  unfold outcome. rewrite Hrun. cbn. split_and!; [done|discriminate|discriminate].
Qed.

(** C7. [updateUser] on an id for which [findOne] finds nothing: the
    method rejects with [NotFoundException]; [findOne] is the only call
    made (no merge, no [save]); and the exception is the one thrown,
    not the [InternalServerErrorException] the [catch] block of the
    method would have made of it. *)
Theorem updateUser_missing_user (userId : string) (userDto : UpdateUserRequestDto)
    w m1 :
  repo_findOne C (FindId userId) (mem w) = (Ok None, m1) ->
  updateUser C codes userId userDto w
    = (Throw (new NotFoundException),
       mkWorld m1 (calls w ++ [FindOne (FindId userId) (Ok None)]))
  /\ outcome (create_catch (A := UserResponseDto) codes
               (update_username userDto) (new NotFoundException)) w
     = Throw (new InternalServerErrorException).
Proof.
  intros Hfind. split; [|reflexivity].
  unfold updateUser, usersRepository_findOne, bind, call.
  by rewrite Hfind.
Qed.

(** C4. [getUsers] when the repository answers with no entity list, an
    empty one, or a total of zero: the method rejects with
    [NotFoundException] after that one call; no mapper call is made and
    no envelope is built, so no page, empty or not, is returned. *)
Theorem getUsers_empty_page (pagination : PaginationRequest) w
    (userEntities : option (list ref)) (totalUsers : Z) m1 :
  repo_getUsersAndCount C pagination (mem w)
    = (Ok (userEntities, totalUsers), m1) ->
  userEntities = None \/ userEntities = Some [] \/ totalUsers = 0 ->
  getUsers C pagination w
    = (Throw (new NotFoundException),
       mkWorld m1
         (calls w ++ [GetUsersAndCount pagination (Ok (userEntities, totalUsers))]))
  /\ (forall page, outcome (getUsers C pagination) w <> Ok page).
Proof.
  intros Hfetch Hempty.
  assert (no_length userEntities || (totalUsers =? 0) = true) as Htest.
  { destruct Hempty as [-> | [-> | ->]]; [done|done|].
    by rewrite Z.eqb_refl, orb_true_r. }
  assert (getUsers C pagination w
    = (Throw (new NotFoundException),
       mkWorld m1
         (calls w ++ [GetUsersAndCount pagination (Ok (userEntities, totalUsers))])))
    as Hrun.
  { unfold getUsers, try_catch, usersRepository_getUsersAndCount, bind, call.
    rewrite Hfetch. cbn. by rewrite Htest. }
  unfold outcome. rewrite Hrun. split; [done|discriminate].
Qed.


(** ** Tactics: running a method on unknown collaborators *)

(** Unfold a method down to the calls of its collaborators. *)
Ltac unfold_service :=
  unfold outcome, issued,
    getUsers, getUserById, createUser, createUserBase, updateUser,
    changePassword, blockUser,
    create_catch, createUserBase_catch, timeout_catch, getUsers_catch,
    usersRepository_getUsersAndCount, usersRepository_findOne,
    usersRepository_save, HashHelper_encrypt, HashHelper_compare,
    UserMapper_toCreateEntity, UserMapper_toCreateSimpleEntity,
    UserMapper_toUpdateEntity, UserMapper_toDto, UserMapper_toDtoWithRelations,
    Pagination_of, Logger_error,
    get_password, set_password, set_status, update_object,
    async, return_call, call_completion, try_catch, bind, call, ret, throw in *.

(** Follow every way the collaborators can answer. *)
Ltac run_service :=
  unfold_service; cbn in *;
  repeat (case_match; simplify_eq/=);
  rewrite <- ?app_assoc, ?drop_app_length in *.

(** Find an entry in an explicit log. *)
Ltac log_inv H :=
  set_unfold in H; destruct_or?; simplify_eq/=.

(** ** The update and create methods *)

(** C9. When the [save] of [updateUser] fails with a uniqueness
    violation, the method rejects with [UserExistsException] carrying
    [userDto.username], the field of the partial input; so when the input
    has no [username] the exception carries [undefined], and no name at
    all, whatever the entity's stored one is. *)
Theorem updateUser_unique_violation (userId : string)
    (userDto : UpdateUserRequestDto) w entity (fields : UserEntity) e :
  Save entity fields (Throw e) ∈ issued (updateUser C codes userId userDto) w ->
  code_eq e (PgUniqueConstraintViolation codes) = true ->
  outcome (updateUser C codes userId userDto) w
    = Throw (new (UserExistsException (update_username userDto)))
  /\ (update_username userDto = None ->
      forall name,
        outcome (updateUser C codes userId userDto) w
          <> Throw (new (UserExistsException (Some name)))).
Proof.
  intros Hsave Hcode.
  assert (outcome (updateUser C codes userId userDto) w
    = Throw (new (UserExistsException (update_username userDto)))) as Hout.
  { run_service; log_inv Hsave; congruence. }
  split; [done|]. intros Hnone name. rewrite Hout, Hnone. discriminate.
Qed.

Lemma createUser_save_failed (userDto : CreateUserRequestDto) w entity
    (fields : UserEntity) e :
  Save entity fields (Throw e) ∈ issued (createUser C codes userDto) w ->
  outcome (createUser C codes userDto) w
    = outcome (create_catch (A := UserResponseDto) codes
                 (Some (create_username userDto)) e) w.
Proof. intros Hsave. run_service; log_inv Hsave; congruence. Qed.

Lemma createUserBase_save_failed (userDto : CreateUserBaseRequestDto) w entity
    (fields : UserEntity) e :
  Save entity fields (Throw e) ∈ issued (createUserBase C codes userDto) w ->
  outcome (createUserBase C codes userDto) w
    = outcome (create_catch (A := UserResponseDto) codes
                 (Some (base_username userDto)) e) w.
Proof. intros Hsave. run_service; log_inv Hsave; congruence. Qed.

(** C3. [createUser] and [createUserBase] translate a failure of [save]
    in the same way.  With the enum's unique-violation code different
    from the other two, and [e] what [save] threw in either method: a
    unique-violation code gives [UserExistsException] with the requested
    username; a foreign-key or not-null code gives
    [ForeignKeyConflictException]; a [TimeoutError] (which has no [code])
    gives [RequestTimeoutException]; anything else gives
    [InternalServerErrorException]; and for equal usernames the two
    methods reject with the same exception. *)
Theorem create_variants_same_translation
    (userDto : CreateUserRequestDto) (baseDto : CreateUserBaseRequestDto)
    w1 w2 entity1 entity2 (fields1 fields2 : UserEntity) e :
  PgUniqueConstraintViolation codes <> PgForeignKeyConstraintViolation codes ->
  PgUniqueConstraintViolation codes <> PgNotNullConstraintViolation codes ->
  Save entity1 fields1 (Throw e) ∈ issued (createUser C codes userDto) w1 ->
  Save entity2 fields2 (Throw e) ∈ issued (createUserBase C codes baseDto) w2 ->
  let full := outcome (createUser C codes userDto) w1 in
  let simple := outcome (createUserBase C codes baseDto) w2 in
  (code_eq e (PgUniqueConstraintViolation codes) = true ->
     full = Throw (new (UserExistsException (Some (create_username userDto))))
     /\ simple = Throw (new (UserExistsException (Some (base_username baseDto)))))
  /\ (code_eq e (PgForeignKeyConstraintViolation codes) = true
      \/ code_eq e (PgNotNullConstraintViolation codes) = true ->
     full = Throw (new ForeignKeyConflictException)
     /\ simple = Throw (new ForeignKeyConflictException))
  /\ (instanceof_TimeoutError e = true -> err_code e = None ->
     full = Throw (new RequestTimeoutException)
     /\ simple = Throw (new RequestTimeoutException))
  /\ (code_eq e (PgUniqueConstraintViolation codes) = false ->
     code_eq e (PgForeignKeyConstraintViolation codes) = false ->
     code_eq e (PgNotNullConstraintViolation codes) = false ->
     instanceof_TimeoutError e = false ->
     full = Throw (new InternalServerErrorException)
     /\ simple = Throw (new InternalServerErrorException))
  /\ (create_username userDto = base_username baseDto -> full = simple).
Proof.
  intros Hfk Hnn Hfull Hsimple full simple. subst full simple.
  rewrite (createUser_save_failed _ _ _ _ _ Hfull),
    (createUserBase_save_failed _ _ _ _ _ Hsimple).
  unfold outcome, create_catch, throw, code_eq in *. destruct e as [cls [c|]]; cbn.
  all: repeat case_bool_decide; simplify_eq/=.
  all: split_and!; intros; destruct_or?; simplify_eq/=; try done.
  all: try (by destruct cls).
  all: congruence.
Qed.

(** ** [getUsers] *)

Lemma Array_map_Ok (entities : list ref) : forall w promises w',
  Array_map (UserMapper_toDtoWithRelations C) entities w = (Ok promises, w') ->
  length promises = length entities
  /\ calls w' = calls w ++
       zip_with (fun entity p => ToDtoWithRelations entity (settled p))
         entities promises.
Proof.
  induction entities as [|entity rest IH]; intros w promises w' Hrun; cbn in Hrun.
  - unfold ret in Hrun. simplify_eq/=. by rewrite app_nil_r.
  - unfold bind at 1 in Hrun.
    unfold UserMapper_toDtoWithRelations, call_completion, call in Hrun.
    destruct (mapper_toDtoWithRelations C entity (mem w)) as [[dto|e|e] m1] eqn:Hcall;
      cbn in Hrun; [|done|].
    all: unfold bind, ret in Hrun;
      match type of Hrun with context [Array_map ?f ?l ?w1] =>
        destruct (Array_map f l w1) as [[ps|e'] w2] eqn:Hrest end;
      simplify_eq/=;
      apply IH in Hrest as [Hlen Hcalls]; cbn in Hcalls;
      rewrite Hcalls, Hlen, <- app_assoc; done.
Qed.

Lemma Array_map_Throw (entities : list ref) : forall w e w',
  Array_map (UserMapper_toDtoWithRelations C) entities w = (Throw e, w') ->
  exists (promises : list (Promise UserResponseDto)) entity,
    calls w' = calls w ++
      zip_with (fun entity p => ToDtoWithRelations entity (settled p))
        entities promises
      ++ [ToDtoWithRelations entity (ThrowsSync e)].
Proof.
  induction entities as [|entity rest IH]; intros w e w' Hrun; cbn in Hrun.
  - done.
  - unfold bind at 1 in Hrun.
    unfold UserMapper_toDtoWithRelations, call_completion, call in Hrun.
    destruct (mapper_toDtoWithRelations C entity (mem w)) as [[dto|e1|e1] m1] eqn:Hcall;
      cbn in Hrun.
    2: { unfold throw in Hrun. simplify_eq/=. by exists [], entity. }
    all: unfold bind, ret in Hrun;
      match type of Hrun with context [Array_map ?f ?l ?w1] =>
        destruct (Array_map f l w1) as [[ps|e'] w2] eqn:Hrest end;
      simplify_eq/=;
      apply IH in Hrest as (promises & entity' & Hcalls); cbn in Hcalls.
    + exists (Fulfilled dto :: promises), entity'. by rewrite Hcalls, <- app_assoc.
    + exists (RejectedWith e1 :: promises), entity'. by rewrite Hcalls, <- app_assoc.
Qed.

Lemma Promise_all_Ok {A} (promises : list (Promise A)) : forall l,
  Promise_all promises = Ok l -> promises = Fulfilled <$> l.
Proof.
  induction promises as [|[a|e] rest IH]; intros l Hall; cbn in Hall.
  - by simplify_eq.
  - destruct (Promise_all rest) as [l'|]; simplify_eq/=. f_equal. by apply IH.
  - done.
Qed.

Lemma Promise_all_Throw {A} (promises : list (Promise A)) e :
  Promise_all promises = Throw e -> RejectedWith e ∈ promises.
Proof.
  induction promises as [|[a|e'] rest IH]; intros Hall; cbn in Hall.
  - done.
  - destruct (Promise_all rest) as [l'|]; simplify_eq/=. right. by apply IH.
  - simplify_eq. left.
Qed.


Lemma zip_with_settled_Fulfilled (entities : list ref) (dtos : list UserResponseDto) :
  zip_with (fun entity p => ToDtoWithRelations entity (settled p) : Event)
    entities (Fulfilled <$> dtos)
  = zip_with (fun entity dto => ToDtoWithRelations entity (Returns dto))
      entities dtos.
Proof.
  revert dtos. induction entities as [|entity rest IH]; intros [|dto dtos]; cbn;
    [done..|]. by rewrite IH.
Qed.

(** C8. When [getUsers] returns a page, the repository answered with a
    non-empty list; the mapper was called once per entity, in the order
    of that list; and the envelope is what [Pagination.of] made of the
    DTOs those calls returned, in the same order: the [i]-th DTO comes
    from the [i]-th entity. *)
Theorem getUsers_preserves_fetch_order (pagination : PaginationRequest) w
    (page : PaginationResponseDto) :
  outcome (getUsers C pagination) w = Ok page ->
  exists (userEntities : list ref) (totalUsers : Z) (UserDtos : list UserResponseDto),
    userEntities <> [] /\ totalUsers <> 0
    /\ length UserDtos = length userEntities
    /\ issued (getUsers C pagination) w
       = GetUsersAndCount pagination (Ok (Some userEntities, totalUsers))
         :: zip_with (fun entity dto => ToDtoWithRelations entity (Returns dto))
              userEntities UserDtos
         ++ [PaginationOf pagination totalUsers UserDtos (Ok page)].
Proof.
  unfold outcome, issued, getUsers, try_catch, bind.
  unfold usersRepository_getUsersAndCount at 1 2. unfold call.
  destruct (repo_getUsersAndCount C pagination (mem w))
    as [[[userEntities totalUsers]|e] m1] eqn:Hfetch; cbn; [|by unfold_service; repeat case_match].
  destruct (no_length userEntities || (totalUsers =? 0)) eqn:Htest; [done|].
  apply orb_false_elim in Htest as [Hlen Htotal].
  destruct userEntities as [userEntities|]; [|done].
  destruct (Array_map _ userEntities _) as [[promises|e] w2] eqn:Hmap;
    [|by unfold_service; repeat case_match].
  apply Array_map_Ok in Hmap as [Hlength Hcalls]. cbn in Hcalls.
  unfold await_all. cbn.
  destruct (Promise_all promises) as [UserDtos|e] eqn:Hall;
    [|by unfold_service; repeat case_match].
  apply Promise_all_Ok in Hall as ->.
  unfold Pagination_of, call.
  destruct (pagination_of C pagination totalUsers UserDtos (mem w2))
    as [[page'|e] m3] eqn:Hpage; cbn; [|by unfold_service; repeat case_match].
  intros [= ->]. exists userEntities, totalUsers, UserDtos.
  rewrite length_fmap in Hlength.
  split_and!; [|by apply Z.eqb_neq|done|].
  - cbn in Hlen. apply bool_decide_eq_false in Hlen. by destruct userEntities.
  - rewrite Hcalls, zip_with_settled_Fulfilled, <- !app_assoc, drop_app_length. done.
Qed.


Lemma getUsers_catch_surfaces e w :
  exists x, getUsers_catch (A := PaginationResponseDto) e w = (Throw x, w)
            /\ surfaces_as e x.
Proof.
  unfold getUsers_catch, instanceof_NotFoundException, instanceof_TimeoutError,
    surfaces_as, throw.
  destruct e as [[] code]; cbn; eexists; (split; [done|]); split_and!; done.
Qed.

Lemma failure_mapped entity (p : Promise UserResponseDto) e :
  failure (ToDtoWithRelations entity (settled p) : Event) = Some e ->
  p = RejectedWith e.
Proof. destruct p; cbn; congruence. Qed.

Lemma failure_in_mapped (entities : list ref)
    (promises : list (Promise UserResponseDto)) (ev : Event) e :
  ev ∈ mapped entities promises -> failure ev = Some e ->
  (exists entity, ev = ToDtoWithRelations entity (Rejects e))
  /\ RejectedWith e ∈ promises.
Proof.
  intros (entity & p & -> & _ & Hp)%elem_of_zip_with Hfail.
  apply failure_mapped in Hfail as ->. split; [by exists entity|done].
Qed.

Lemma no_failure_in_fulfilled (entities : list ref)
    (dtos : list UserResponseDto) (ev : Event) :
  ev ∈ mapped entities (Fulfilled <$> dtos) -> failure ev = None.
Proof.
  intros (entity & p & -> & _ & Hp)%elem_of_zip_with.
  by apply list_elem_of_fmap in Hp as (dto & -> & _).
Qed.

Lemma rejected_in_log (entities : list ref)
    (promises : list (Promise UserResponseDto)) e :
  length promises = length entities ->
  RejectedWith e ∈ promises ->
  exists entity,
    (ToDtoWithRelations entity (Rejects e) : Event)
    ∈ mapped entities promises.
Proof.
  intros Hlen (i & Hi)%list_elem_of_lookup_1. unfold mapped.
  destruct (entities !! i) as [entity|] eqn:Hentity.
  - exists entity. apply list_elem_of_lookup_2 with i.
    rewrite lookup_zip_with, Hentity. cbn. by rewrite Hi.
  - apply lookup_ge_None in Hentity. apply lookup_lt_Some in Hi. lia.
Qed.


Lemma getUsers_runs (pagination : PaginationRequest) w :
  getUsers_run pagination (issued (getUsers C pagination) w)
    (outcome (getUsers C pagination) w).
Proof.
  unfold outcome, issued, getUsers, try_catch, bind.
  unfold usersRepository_getUsersAndCount at 1 2. unfold call.
  destruct (repo_getUsersAndCount C pagination (mem w))
    as [[[userEntities totalUsers]|e0] m1] eqn:Hfetch; cbn.
  2: { destruct (getUsers_catch_surfaces e0
      (mkWorld m1 (calls w ++ [GetUsersAndCount pagination (Throw e0)])))
      as (x & -> & Hx). cbn. rewrite drop_app_length. by constructor. }
  destruct (no_length userEntities || (totalUsers =? 0)) eqn:Htest; cbn.
  { rewrite drop_app_length. constructor.
    apply orb_prop in Htest as [Hlen | ->%Z.eqb_eq]; [|tauto].
    destruct userEntities as [[|]|]; [auto| |auto].
    cbn in Hlen. by apply bool_decide_eq_true in Hlen. }
  apply orb_false_elim in Htest as [Hlen Htotal%Z.eqb_neq].
  destruct userEntities as [userEntities|]; [|done].
  assert (userEntities <> []) as Hne.
  { cbn in Hlen. apply bool_decide_eq_false in Hlen. by destruct userEntities. }
  destruct (Array_map _ userEntities _) as [[promises|e0] w2] eqn:Hmap.
  2: { apply Array_map_Throw in Hmap as (promises & entity & Hcalls).
       cbn in Hcalls.
       destruct (getUsers_catch_surfaces e0 w2) as (x & -> & Hx). cbn.
       rewrite Hcalls, <- !app_assoc, drop_app_length. by constructor. }
  apply Array_map_Ok in Hmap as [Hlength Hcalls]. cbn in Hcalls.
  destruct (Promise_all promises) as [UserDtos|e0] eqn:Hall.
  2: { apply Promise_all_Throw in Hall.
       destruct (getUsers_catch_surfaces e0 w2) as (x & -> & Hx). cbn.
       rewrite Hcalls, <- !app_assoc, drop_app_length.
       by apply run_mapper_rejected with e0. }
  apply Promise_all_Ok in Hall as ->. rewrite length_fmap in Hlength.
  unfold Pagination_of, call.
  destruct (pagination_of C pagination totalUsers UserDtos (mem w2))
    as [[page|e0] m3] eqn:Hpage; cbn.
  - rewrite Hcalls, <- !app_assoc, drop_app_length. by constructor.
  - match goal with |- context [getUsers_catch _ ?w3] =>
      destruct (getUsers_catch_surfaces e0 w3) as (x & -> & Hx) end. cbn.
    rewrite Hcalls, <- !app_assoc, drop_app_length. by constructor.
Qed.


(** C5. The failures of [getUsers].  Whenever a call of the method
    failed (the fetch, a mapper call, the envelope step), the method
    rejects, and with the translation of that failure: a NotFound stays
    [NotFoundException], a [TimeoutError] becomes
    [RequestTimeoutException], anything else
    [InternalServerErrorException].  (When the failed call is a rejected
    mapper promise, the translated failure may be that of another failed
    mapper call: [Promise.all] reports one rejection.)  And when no call
    failed, the only rejection is the [NotFoundException] the method
    raises itself for the empty page, which reaches the caller as
    [NotFoundException]. *)
Theorem getUsers_error_translation (pagination : PaginationRequest) w :
  (forall (ev : Event) e,
     ev ∈ issued (getUsers C pagination) w -> failure ev = Some e ->
     exists x,
       outcome (getUsers C pagination) w = Throw x
       /\ (surfaces_as e x
           \/ (exists entity, ev = ToDtoWithRelations entity (Rejects e))
              /\ exists (ev' : Event) e',
                   ev' ∈ issued (getUsers C pagination) w
                   /\ failure ev' = Some e' /\ surfaces_as e' x))
  /\ ((forall ev : Event,
         ev ∈ issued (getUsers C pagination) w -> failure ev = None) ->
      forall x, outcome (getUsers C pagination) w = Throw x ->
                x = new NotFoundException).
Proof.
  pose proof (getUsers_runs pagination w) as Hrun.
  destruct Hrun as [e x Hx | userEntities totalUsers Hempty
    | userEntities totalUsers promises entity e x Hx
    | userEntities totalUsers promises e x Hlen He Hx
    | userEntities totalUsers UserDtos e x Hlen Hx
    | userEntities totalUsers UserDtos page Hne Htotal Hlen ]; split.
  all: try (intros ev0 e0 Hin Hfail).
  all: try (intros Hnone x0 Hx0).
  - (* the fetch failed *)
    apply list_elem_of_singleton in Hin as ->. cbn in Hfail.
    exists x. simplify_eq. split; [done|by left].
  - by opose proof* (Hnone (GetUsersAndCount pagination (Throw e)));
      [set_solver|].
  - (* the empty page *)
    by apply list_elem_of_singleton in Hin as ->.
  - by simplify_eq.
  - (* a mapper call threw *)
    exists x. split; [done|].
    apply elem_of_cons in Hin as [-> | [Hin | Hin]%elem_of_app]; [done| |].
    + right. split; [by eapply failure_in_mapped|].
      exists (ToDtoWithRelations entity (ThrowsSync e)), e.
      split; [|done]. set_solver.
    + apply list_elem_of_singleton in Hin as ->. cbn in Hfail.
      left. by simplify_eq.
  - by opose proof* (Hnone (ToDtoWithRelations entity (ThrowsSync e)));
      [set_solver|].
  - (* a mapper promise rejected *)
    exists x. split; [done|].
    apply elem_of_cons in Hin as [-> | Hin]; [done|].
    right. split; [by eapply failure_in_mapped|].
    destruct (rejected_in_log userEntities promises e Hlen He) as [entity Hev].
    exists (ToDtoWithRelations entity (Rejects e)), e.
    split; [|done]. by right.
  - destruct (rejected_in_log userEntities promises e Hlen He) as [entity Hev].
    by opose proof* (Hnone (ToDtoWithRelations entity (Rejects e)));
      [by right|].
  - (* the envelope step failed *)
    exists x. split; [done|].
    apply elem_of_cons in Hin as [-> | [Hin | Hin]%elem_of_app]; [done| |].
    + apply no_failure_in_fulfilled in Hin. congruence.
    + apply list_elem_of_singleton in Hin as ->. cbn in Hfail.
      left. by simplify_eq.
  - by opose proof* (Hnone (PaginationOf pagination totalUsers UserDtos (Throw e)));
      [set_solver|].
  - (* a page was returned: no call failed *)
    apply elem_of_cons in Hin as [-> | [Hin | Hin]%elem_of_app]; [done| |].
    + apply no_failure_in_fulfilled in Hin. congruence.
    + by apply list_elem_of_singleton in Hin as ->.
  - done.
Qed.

(** ** What is saved, and what is mapped to the response *)


(** C10. The entity the response DTO is made from.  In
    [changePassword] and [blockUser], once [save] has answered, [toDto]
    is applied to the object [findOne] returned and the method changed
    (it was handed to [save] with the new hash, respectively with status
    Blocked); what [save] returned is not used.  In [createUser] and
    [updateUser], once [save] has answered, [toDto] is applied to what
    [save] returned.  In all four the method fulfils with a DTO exactly
    when that [toDto] call returned it.  The first four parts read this
    off any run in which [toDto] was called; the last four derive the
    run from the answers of the collaborators. *)
Theorem response_dto_source (req : ChangePasswordRequestDto) (userId : string)
    (createDto : CreateUserRequestDto) (userDto : UpdateUserRequestDto)
    w entity (r : Completion UserResponseDto) :
  (ToDto entity r ∈ issued (changePassword C req userId) w ->
   exists stored hash fields saved,
     issued (changePassword C req userId) w
       = [FindOne (FindWhereId userId) (Ok (Some entity));
          Compare (currentPassword req) stored (Ok true);
          Encrypt (newPassword req) (Ok hash);
          Save entity fields (Ok saved);
          ToDto entity r]
     /\ password fields = hash
     /\ forall dto, outcome (changePassword C req userId) w = Ok dto
                    <-> r = Returns dto)
  /\ (ToDto entity r ∈ issued (blockUser C userId) w ->
      exists fields saved,
        issued (blockUser C userId) w
          = [FindOne (FindId userId) (Ok (Some entity));
             Save entity fields (Ok saved);
             ToDto entity r]
        /\ status fields = Blocked
        /\ forall dto, outcome (blockUser C userId) w = Ok dto
                       <-> r = Returns dto)
  /\ (ToDto entity r ∈ issued (createUser C codes createDto) w ->
      exists created plain hash fields,
        issued (createUser C codes createDto) w
          = [ToCreateEntity createDto (Ok created);
             Encrypt plain (Ok hash);
             Save created fields (Ok entity);
             ToDto entity r]
        /\ forall dto, outcome (createUser C codes createDto) w = Ok dto
                       <-> r = Returns dto)
  /\ (ToDto entity r ∈ issued (updateUser C codes userId userDto) w ->
      exists found merged fields,
        issued (updateUser C codes userId userDto) w
          = [FindOne (FindId userId) (Ok (Some found));
             ToUpdateEntity found userDto (Ok merged);
             Save merged fields (Ok entity);
             ToDto entity r]
        /\ forall dto, outcome (updateUser C codes userId userDto) w = Ok dto
                       <-> r = Returns dto)
  /\ (forall m1 m2 hash m3 saved m4,
        repo_findOne C (FindWhereId userId) (mem w) = (Ok (Some entity), m1) ->
        hash_compare C (currentPassword req) (password (objects m1 !!! entity)) m1
          = (Ok true, m2) ->
        hash_encrypt C (newPassword req) m2 = (Ok hash, m3) ->
        repo_save C entity (assigned (with_password hash) entity m3)
          = (Ok saved, m4) ->
        issued (changePassword C req userId) w
          = [FindOne (FindWhereId userId) (Ok (Some entity));
             Compare (currentPassword req) (password (objects m1 !!! entity))
               (Ok true);
             Encrypt (newPassword req) (Ok hash);
             Save entity (with_password hash (objects m3 !!! entity)) (Ok saved);
             ToDto entity (fst (mapper_toDto C entity m4))]
        /\ forall dto, outcome (changePassword C req userId) w = Ok dto
                       <-> fst (mapper_toDto C entity m4) = Returns dto)
  /\ (forall m1 saved m2,
        repo_findOne C (FindId userId) (mem w) = (Ok (Some entity), m1) ->
        repo_save C entity (assigned (with_status Blocked) entity m1)
          = (Ok saved, m2) ->
        issued (blockUser C userId) w
          = [FindOne (FindId userId) (Ok (Some entity));
             Save entity (with_status Blocked (objects m1 !!! entity)) (Ok saved);
             ToDto entity (fst (mapper_toDto C entity m2))]
        /\ forall dto, outcome (blockUser C userId) w = Ok dto
                       <-> fst (mapper_toDto C entity m2) = Returns dto)
  /\ (forall created m1 hash m2 m3,
        mapper_toCreateEntity C createDto (mem w) = (Ok created, m1) ->
        hash_encrypt C (password (objects m1 !!! created)) m1 = (Ok hash, m2) ->
        repo_save C created (assigned (with_password hash) created m2)
          = (Ok entity, m3) ->
        issued (createUser C codes createDto) w
          = [ToCreateEntity createDto (Ok created);
             Encrypt (password (objects m1 !!! created)) (Ok hash);
             Save created (with_password hash (objects m2 !!! created))
               (Ok entity);
             ToDto entity (fst (mapper_toDto C entity m3))]
        /\ forall dto, outcome (createUser C codes createDto) w = Ok dto
                       <-> fst (mapper_toDto C entity m3) = Returns dto)
  /\ (forall found m1 merged m2 m3,
        repo_findOne C (FindId userId) (mem w) = (Ok (Some found), m1) ->
        mapper_toUpdateEntity C found userDto m1 = (Ok merged, m2) ->
        repo_save C merged m2 = (Ok entity, m3) ->
        issued (updateUser C codes userId userDto) w
          = [FindOne (FindId userId) (Ok (Some found));
             ToUpdateEntity found userDto (Ok merged);
             Save merged (objects m2 !!! merged) (Ok entity);
             ToDto entity (fst (mapper_toDto C entity m3))]
        /\ forall dto, outcome (updateUser C codes userId userDto) w = Ok dto
                       <-> fst (mapper_toDto C entity m3) = Returns dto).
Proof.
  split_and!.
  1-4: intros Hdto; run_service; log_inv Hdto;
    rewrite ?lookup_total_insert_eq;
    repeat match goal with b : bool |- _ => destruct b end; simplify_eq/=;
    repeat eexists; try done; congruence.
  all: unfold assigned; intros; unfold_service; cbn in *.
  all: repeat match goal with
         | H : ?call = (_, _) |- context [?call] => rewrite H; cbn
         end.
  all: rewrite <- ?app_assoc, ?drop_app_length, ?lookup_total_insert_eq.
  all: destruct (mapper_toDto C entity _) as [[dto'|e'|e'] m']; cbn.
  all: repeat (case_match; simplify_eq/=).
  all: rewrite <- ?app_assoc, ?drop_app_length, ?lookup_total_insert_eq.
  all: (split; [done|]); intros dto; split; congruence.
Qed.
(** ** Further properties *)

(** *** [getUserById] *)

(** X1. [getUserById] on an id for which [findOne] finds nothing rejects
    with [NotFoundException]; the one call made is the [findOne] with the
    relations [permissions] and [roles], and the mapper is not called. *)
Theorem getUserById_missing_user (userId : string) w m1 :
  repo_findOne C (FindIdRelations userId ["permissions"; "roles"]) (mem w)
    = (Ok None, m1) ->
  getUserById C userId w
    = (Throw (new NotFoundException),
       mkWorld m1
         (calls w ++
            [FindOne (FindIdRelations userId ["permissions"; "roles"]) (Ok None)])).
Proof.
  intros Hfind. unfold getUserById, usersRepository_findOne, bind, call.
  by rewrite Hfind.
Qed.

(** X2. [getUserById] has no [try]: whatever the [findOne] or the mapper
    call fails with (thrown or rejected, a [TimeoutError] included)
    reaches the caller as it is, untranslated. *)
Theorem getUserById_failure_not_translated (userId : string) w (ev : Event) e :
  ev ∈ issued (getUserById C userId) w -> failure ev = Some e ->
  outcome (getUserById C userId) w = Throw e.
Proof.
  intros Hin Hfail. run_service; log_inv Hin; congruence.
Qed.

(** X3. [getUserById] fulfils with a DTO exactly when [findOne], asked
    for the relations [permissions] and [roles], found an entity and the
    one [toDtoWithRelations] call on that entity returned the DTO. *)
Theorem getUserById_returns_mapped (userId : string) w (dto : UserResponseDto) :
  outcome (getUserById C userId) w = Ok dto
  <-> exists entity,
        issued (getUserById C userId) w
          = [FindOne (FindIdRelations userId ["permissions"; "roles"])
               (Ok (Some entity));
             ToDtoWithRelations entity (Returns dto)].
Proof.
  split.
  - intros Hout. run_service; try done. by eexists.
  - intros [entity Hlog]. run_service; by simplify_eq/=.
Qed.

(** *** [changePassword] *)

(** X4. [changePassword] on an id for which [findOne] finds nothing
    rejects with [NotFoundException] after that one call: nothing is
    compared, hashed or saved. *)
Theorem changePassword_missing_user (req : ChangePasswordRequestDto)
    (userId : string) w m1 :
  repo_findOne C (FindWhereId userId) (mem w) = (Ok None, m1) ->
  changePassword C req userId w
    = (Throw (new NotFoundException),
       mkWorld m1 (calls w ++ [FindOne (FindWhereId userId) (Ok None)])).
Proof.
  intros Hfind. unfold changePassword, usersRepository_findOne, bind, call.
  by rewrite Hfind.
Qed.

(** X5. A failure of the comparator in [changePassword] is not caught:
    the method rejects with what [HashHelper.compare] threw, and neither
    [encrypt] nor [save] is called. *)
Theorem changePassword_compare_failure (req : ChangePasswordRequestDto)
    (userId : string) w (plain hash : string) e :
  Compare plain hash (Throw e) ∈ issued (changePassword C req userId) w ->
  outcome (changePassword C req userId) w = Throw e
  /\ forall ev : Event, ev ∈ issued (changePassword C req userId) w ->
       is_Save ev = false /\ (forall p r, ev <> Encrypt p r).
Proof.
  intros Hin. run_service; log_inv Hin.
  split; [done|]. intros ev Hev. log_inv Hev; done.
Qed.

(** X6. [changePassword] saves only after a successful verification:
    whenever [save] is called, [findOne] had found the entity,
    [compare] had been given the request's current password and the
    entity's stored password and had answered true, [encrypt] had
    hashed the request's new password, and the entity handed to [save]
    is the found one with that hash as its password. *)
Theorem changePassword_saves_after_verification
    (req : ChangePasswordRequestDto) (userId : string) w entity
    (fields : UserEntity) (r : Result ref) :
  Save entity fields r ∈ issued (changePassword C req userId) w ->
  exists m1 m2 hash m3,
    repo_findOne C (FindWhereId userId) (mem w) = (Ok (Some entity), m1)
    /\ hash_compare C (currentPassword req) (password (objects m1 !!! entity)) m1
       = (Ok true, m2)
    /\ hash_encrypt C (newPassword req) m2 = (Ok hash, m3)
    /\ fields = with_password hash (objects m3 !!! entity).
Proof.
  intros Hin. run_service; log_inv Hin.
  all: rewrite ?lookup_total_insert_eq.
  all: repeat match goal with b : bool |- _ => destruct b end; simplify_eq/=.
  all: by eexists _, _, _, _.
Qed.

(** X7. In [changePassword], a failure of [encrypt] or of [save] is
    translated into two kinds only: a [TimeoutError] gives
    [RequestTimeoutException], anything else, a constraint violation
    with its PostgreSQL code included, gives
    [InternalServerErrorException]. *)
Theorem changePassword_persistence_failure (req : ChangePasswordRequestDto)
    (userId : string) w (ev : Event) e :
  ev ∈ issued (changePassword C req userId) w ->
  (exists p, ev = Encrypt p (Throw e))
  \/ (exists entity fields, ev = Save entity fields (Throw e)) ->
  outcome (changePassword C req userId) w = Throw (timeout_or_internal e).
Proof.
  intros Hin Hev. unfold timeout_or_internal.
  destruct Hev as [(p & ->) | (entity & fields & ->)].
  all: run_service; log_inv Hin; congruence.
Qed.
(** *** [blockUser] and [updateUser] *)

(** X8. [blockUser] changes the status and nothing else: whenever [save]
    is called, [findOne] had found the entity, and the entity handed to
    [save] is the found one with status [Blocked], every other field,
    the password included, as it was found. *)
Theorem blockUser_saves_blocked (userId : string) w entity
    (fields : UserEntity) (r : Result ref) :
  Save entity fields r ∈ issued (blockUser C userId) w ->
  exists m1,
    repo_findOne C (FindId userId) (mem w) = (Ok (Some entity), m1)
    /\ fields = with_status Blocked (objects m1 !!! entity).
Proof.
  intros Hin. run_service; log_inv Hin.
  all: rewrite ?lookup_total_insert_eq; by eexists.
Qed.

(** X9. In [blockUser], a failure of [save] is translated into two kinds
    only: a [TimeoutError] gives [RequestTimeoutException], anything
    else [InternalServerErrorException]. *)
Theorem blockUser_persistence_failure (userId : string) w entity
    (fields : UserEntity) e :
  Save entity fields (Throw e) ∈ issued (blockUser C userId) w ->
  outcome (blockUser C userId) w = Throw (timeout_or_internal e).
Proof.
  intros Hin. unfold timeout_or_internal.
  run_service; log_inv Hin; congruence.
Qed.

(** X10. In [updateUser], [changePassword] and [blockUser] the [findOne]
    stands before the [try]: when it fails, the method rejects with what
    [findOne] threw, untranslated, and it was the only call made. *)
Theorem findOne_failure_not_translated (req : ChangePasswordRequestDto)
    (userId : string) (userDto : UpdateUserRequestDto) w (arg : FindArg) e :
  (FindOne arg (Throw e) ∈ issued (updateUser C codes userId userDto) w ->
   outcome (updateUser C codes userId userDto) w = Throw e
   /\ issued (updateUser C codes userId userDto) w = [FindOne arg (Throw e)])
  /\ (FindOne arg (Throw e) ∈ issued (changePassword C req userId) w ->
      outcome (changePassword C req userId) w = Throw e
      /\ issued (changePassword C req userId) w = [FindOne arg (Throw e)])
  /\ (FindOne arg (Throw e) ∈ issued (blockUser C userId) w ->
      outcome (blockUser C userId) w = Throw e
      /\ issued (blockUser C userId) w = [FindOne arg (Throw e)]).
Proof.
  split_and!; intros Hin; run_service; log_inv Hin; done.
Qed.

Lemma updateUser_failed_in_try (userId : string) (userDto : UpdateUserRequestDto)
    w (ev : Event) e :
  ev ∈ issued (updateUser C codes userId userDto) w ->
  (exists entity, ev = ToUpdateEntity entity userDto (Throw e))
  \/ (exists entity fields, ev = Save entity fields (Throw e)) ->
  outcome (updateUser C codes userId userDto) w
    = outcome (create_catch (A := UserResponseDto) codes
                 (update_username userDto) e) w.
Proof.
  intros Hin [(entity & ->) | (entity & fields & ->)].
  all: run_service; log_inv Hin; congruence.
Qed.

(** X11. [updateUser] translates a failure of the merge or of [save] as
    the create methods do.  With the enum's unique-violation code
    different from the other two: a foreign-key or not-null code gives
    [ForeignKeyConflictException]; a [TimeoutError] (which has no [code])
    gives [RequestTimeoutException]; an error with none of the three
    codes that is no [TimeoutError] gives
    [InternalServerErrorException]. *)
Theorem updateUser_failure_translation (userId : string)
    (userDto : UpdateUserRequestDto) w (ev : Event) e :
  PgUniqueConstraintViolation codes <> PgForeignKeyConstraintViolation codes ->
  PgUniqueConstraintViolation codes <> PgNotNullConstraintViolation codes ->
  ev ∈ issued (updateUser C codes userId userDto) w ->
  (exists entity, ev = ToUpdateEntity entity userDto (Throw e))
  \/ (exists entity fields, ev = Save entity fields (Throw e)) ->
  let result := outcome (updateUser C codes userId userDto) w in
  (code_eq e (PgForeignKeyConstraintViolation codes) = true
   \/ code_eq e (PgNotNullConstraintViolation codes) = true ->
   result = Throw (new ForeignKeyConflictException))
  /\ (instanceof_TimeoutError e = true -> err_code e = None ->
      result = Throw (new RequestTimeoutException))
  /\ (code_eq e (PgUniqueConstraintViolation codes) = false ->
      code_eq e (PgForeignKeyConstraintViolation codes) = false ->
      code_eq e (PgNotNullConstraintViolation codes) = false ->
      instanceof_TimeoutError e = false ->
      result = Throw (new InternalServerErrorException)).
Proof.
  intros Hfk Hnn Hin Hev result. subst result.
  rewrite (updateUser_failed_in_try _ _ _ _ _ Hin Hev).
  unfold outcome, create_catch, throw, code_eq in *. destruct e as [cls [c|]]; cbn.
  all: repeat case_bool_decide; simplify_eq/=.
  all: split_and!; intros; destruct_or?; simplify_eq/=; try done.
  all: by destruct cls.
Qed.

(** X12. [updateUser] and [blockUser] never call the hash helper: no
    [encrypt] and no [compare] is among their calls, so a password that
    the merge puts on the entity is saved as the mapper left it. *)
Theorem update_and_block_never_hash (userId : string)
    (userDto : UpdateUserRequestDto) w (ev : Event) :
  (ev ∈ issued (updateUser C codes userId userDto) w -> is_HashHelper ev = false)
  /\ (ev ∈ issued (blockUser C userId) w -> is_HashHelper ev = false).
Proof.
  split; intros Hin; run_service; log_inv Hin; done.
Qed.

(** X18. [updateUser] saves the merged entity as the mapper returned it:
    whenever [save] is called, [findOne] had found an entity,
    [toUpdateEntity] had merged the partial input onto it, and what is
    handed to [save] is the entity the mapper returned, no field of it
    changed by the method. *)
Theorem updateUser_saves_merged (userId : string) (userDto : UpdateUserRequestDto)
    w entity (fields : UserEntity) (r : Result ref) :
  Save entity fields r ∈ issued (updateUser C codes userId userDto) w ->
  exists found m1 m2,
    repo_findOne C (FindId userId) (mem w) = (Ok (Some found), m1)
    /\ mapper_toUpdateEntity C found userDto m1 = (Ok entity, m2)
    /\ fields = objects m2 !!! entity.
Proof.
  intros Hin. run_service; log_inv Hin; by eexists _, _, _.
Qed.

(** *** The create methods *)

(** X13. When the mapper or [HashHelper.encrypt] fails in [createUser]
    or [createUserBase], [save] is not called (no entity with an
    unhashed password reaches the repository), and the failure goes
    through the [catch] block of the method like a failure of [save]. *)
Theorem create_failure_before_save (userDto : CreateUserRequestDto)
    (baseDto : CreateUserBaseRequestDto) w (ev : Event) e :
  (ev ∈ issued (createUser C codes userDto) w ->
   ev = ToCreateEntity userDto (Throw e) \/ (exists p, ev = Encrypt p (Throw e)) ->
   saves (issued (createUser C codes userDto) w) = 0%nat
   /\ outcome (createUser C codes userDto) w
      = outcome (create_catch (A := UserResponseDto) codes
                   (Some (create_username userDto)) e) w)
  /\ (ev ∈ issued (createUserBase C codes baseDto) w ->
      ev = ToCreateSimpleEntity baseDto (Throw e)
      \/ (exists p, ev = Encrypt p (Throw e)) ->
      saves (issued (createUserBase C codes baseDto) w) = 0%nat
      /\ outcome (createUserBase C codes baseDto) w
         = outcome (createUserBase_catch (A := UserResponseDto) codes
                      (Some (base_username baseDto)) e) w).
Proof.
  unfold saves. split; intros Hin [-> | (p & ->)].
  all: match goal with |- _ /\ _ = ?rhs => set (translated := rhs) end.
  all: run_service; log_inv Hin; (split; [done|]).
  all: subst translated;
    unfold outcome, create_catch, createUserBase_catch, Logger_error, bind, throw.
  all: repeat match goal with
         | H : ?b = _ |- context [if ?b then _ else _] => rewrite H
         end; done.
Qed.

(** X14. The one difference between the two [catch] blocks of the
    create methods: [createUserBase] calls [Logger.error] with the error
    when [save] fails with the foreign-key or the not-null code (and not
    the unique one); whenever it logs, it rejects with
    [ForeignKeyConflictException] and the logged error carries one of
    those two codes; [createUser] never calls [Logger.error]. *)
Theorem createUserBase_logs_conflicts (userDto : CreateUserRequestDto)
    (baseDto : CreateUserBaseRequestDto) w :
  (forall entity fields e,
     Save entity fields (Throw e) ∈ issued (createUserBase C codes baseDto) w ->
     code_eq e (PgUniqueConstraintViolation codes) = false ->
     code_eq e (PgForeignKeyConstraintViolation codes) = true
     \/ code_eq e (PgNotNullConstraintViolation codes) = true ->
     LoggerError e ∈ issued (createUserBase C codes baseDto) w)
  /\ (forall e, LoggerError e ∈ issued (createUserBase C codes baseDto) w ->
        outcome (createUserBase C codes baseDto) w
          = Throw (new ForeignKeyConflictException)
        /\ (code_eq e (PgForeignKeyConstraintViolation codes) = true
            \/ code_eq e (PgNotNullConstraintViolation codes) = true))
  /\ (forall ev : Event, ev ∈ issued (createUser C codes userDto) w ->
        is_LoggerError ev = false).
Proof.
  split_and!.
  - intros entity fields e Hin Hunique Hcode.
    run_service; log_inv Hin; try congruence; try set_solver.
    all: match goal with
         | H : _ || _ = false |- _ => apply orb_false_elim in H as [? ?]
         end; congruence.
  - intros e Hin. run_service; log_inv Hin.
    all: split; [done|by apply orb_prop].
  - intros ev Hin. run_service; log_inv Hin; done.
Qed.


(** *** All methods *)

Lemma saves_mapped (entities : list ref)
    (promises : list (Promise UserResponseDto)) :
  List.filter is_Save (mapped entities promises : list Event) = [].
Proof.
  unfold mapped. revert promises.
  induction entities as [|entity rest IH]; intros [|p promises]; cbn; auto.
Qed.

Lemma getUsers_never_saves (pagination : PaginationRequest) w :
  saves (issued (getUsers C pagination) w) = 0%nat.
Proof.
  unfold saves.
  destruct (getUsers_runs pagination w); cbn;
    rewrite ?List.filter_app, ?saves_mapped; done.
Qed.

(** X16. No method retries: [createUser], [createUserBase], [updateUser],
    [changePassword] and [blockUser] call [save] at most once, whatever
    it answers; [getUsers] and [getUserById] never call it. *)
Theorem save_at_most_once (pagination : PaginationRequest)
    (createDto : CreateUserRequestDto) (baseDto : CreateUserBaseRequestDto)
    (userId : string) (userDto : UpdateUserRequestDto)
    (req : ChangePasswordRequestDto) w :
  (saves (issued (createUser C codes createDto) w) <= 1)%nat
  /\ (saves (issued (createUserBase C codes baseDto) w) <= 1)%nat
  /\ (saves (issued (updateUser C codes userId userDto) w) <= 1)%nat
  /\ (saves (issued (changePassword C req userId) w) <= 1)%nat
  /\ (saves (issued (blockUser C userId) w) <= 1)%nat
  /\ saves (issued (getUsers C pagination) w) = 0%nat
  /\ saves (issued (getUserById C userId) w) = 0%nat.
Proof.
  split_and!; [..|apply getUsers_never_saves|].
  all: unfold saves; run_service; cbn; lia.
Qed.

(** X17. [getUsers] never lets a raw error through: whatever its
    collaborators throw or reject with, the method rejects only with a
    fresh [NotFoundException], [RequestTimeoutException] or
    [InternalServerErrorException]. *)
Theorem getUsers_rejections (pagination : PaginationRequest) w x :
  outcome (getUsers C pagination) w = Throw x ->
  x = new NotFoundException
  \/ x = new RequestTimeoutException
  \/ x = new InternalServerErrorException.
Proof.
  intros Hout.
  assert (forall e y, surfaces_as e y ->
            y = new NotFoundException \/ y = new RequestTimeoutException
            \/ y = new InternalServerErrorException) as Hkinds.
  { intros e y (Hnf & Hto & Hother).
    destruct (decide (err_class e = NotFoundException)); [auto|].
    destruct (decide (err_class e = TimeoutError)); auto. }
  destruct (getUsers_runs pagination w); simplify_eq/=; eauto.
Qed.

End Properties.

(** * Properties of the Vite plugin list *)

Section VitePluginsProperties.

Import VitePlugins.

Implicit Types (env : gmap string string) (command mode : string).

Lemma substring_all (s : string) : String.substring 0 (String.length s) s = s.
Proof. induction s as [|a s IH]; simpl; [done|by f_equal]. Qed.

Lemma substring_suffix (prefix suffix : string) :
  String.substring (String.length prefix) (String.length suffix)
    (prefix +:+ suffix) = suffix.
Proof. induction prefix as [|a prefix IH]; simpl; [apply substring_all|done]. Qed.

Lemma length_app_string (s t : string) :
  String.length (s +:+ t) = (String.length s + String.length t)%nat.
Proof.
  induction s as [|a s IH]; [done|].
  change (S (String.length (s +:+ t))
          = S (String.length s + String.length t)). by f_equal.
Qed.

Lemma substring_split (s : string) : forall i,
  (i <= String.length s)%nat ->
  s = String.substring 0 i s +:+ String.substring i (String.length s - i) s.
Proof.
  induction s as [|a s IH]; intros [|i] Hi; simpl in *.
  - done.
  - lia.
  - by rewrite substring_all.
  - change (String a s
            = String a (String.substring 0 i s
                        +:+ String.substring i (String.length s - i) s)).
    f_equal. apply IH. lia.
Qed.

(** [endsWith] is what its name says. *)
Lemma endsWith_spec (s suffix : string) :
  endsWith s suffix = true <-> exists prefix, s = prefix +:+ suffix.
Proof.
  unfold endsWith. rewrite andb_true_iff, bool_decide_eq_true, Nat.leb_le. split.
  - intros [Hle Hsub].
    exists (String.substring 0 (String.length s - String.length suffix) s).
    pose proof (substring_split s (String.length s - String.length suffix)
                  ltac:(lia)) as Hsplit.
    replace (String.length s - (String.length s - String.length suffix))%nat
      with (String.length suffix) in Hsplit by lia.
    by rewrite Hsub in Hsplit.
  - intros [prefix ->]. rewrite length_app_string. split; [lia|].
    replace (String.length prefix + String.length suffix - String.length suffix)%nat
      with (String.length prefix) by lia.
    apply substring_suffix.
Qed.

(** X19. The list always starts with the three base plugins ([vue] with
    the custom element [Diff], [vueJsx], the minifying [html]), in that
    order; a build adds two plugins and a mode ending in [mock] adds
    one, so the list has three to six entries. *)
Theorem createVitePlugins_base_and_length env command mode :
  (exists title css js,
     take 3 (createVitePlugins env command mode)
     = [vue "Diff"; vueJsx; html title css js true])
  /\ length (createVitePlugins env command mode)
     = (3 + (if bool_decide (command = "build") then 2 else 0)
          + (if endsWith mode "mock" then 1 else 0))%nat.
Proof.
  unfold createVitePlugins.
  destruct (bool_decide (command = "build")), (endsWith mode "mock"); cbn;
    (split; [by eexists _, _, _|done]).
Qed.

(** X20. The plugins that are only for production: the PWA plugin (with
    [autoUpdate]) and the visualizer are in the list exactly when the
    command is [build]; the mock server is in the list exactly when the
    mode ends in [mock], and then it is the last entry. *)
Theorem createVitePlugins_conditional_plugins env command mode :
  (VitePWA "autoUpdate" ∈ createVitePlugins env command mode
   <-> command = "build")
  /\ (configVisualizerConfig ∈ createVitePlugins env command mode
      <-> command = "build")
  /\ ((exists path l p code,
         last (createVitePlugins env command mode)
         = Some (viteMockServe path l p code))
      <-> exists prefix, mode = prefix +:+ "mock")
  /\ (forall path l p code,
        viteMockServe path l p code ∈ createVitePlugins env command mode ->
        last (createVitePlugins env command mode)
        = Some (viteMockServe path l p code)).
Proof.
  rewrite <- endsWith_spec. unfold createVitePlugins.
  destruct (bool_decide (command = "build")) eqn:Hbuild;
    [apply bool_decide_eq_true in Hbuild|apply bool_decide_eq_false in Hbuild].
  all: destruct (endsWith mode "mock"); cbn.
  all: split_and!; try (intros path l p code);
    rewrite ?elem_of_cons, ?elem_of_nil.
  all: try (split; [intros (path & l & p & code & [=])|intros [=]]).
  all: try (split; [done|intros _; by eexists _, _, _, _]).
  all: intuition (try discriminate; try congruence).
  all: by eexists _, _, _, _.

Qed.

(** X21. The two switches of the mock server are never both on: the
    production switch is on exactly for the command [build]; the local
    switch is on exactly when the command is not [build] and the
    environment has [VITE_USE_MOCK] set to the string [true] (a missing
    variable counts as off). *)
Theorem createVitePlugins_mock_switches env command mode
    (path : string) (localEnabled prodEnabled : bool) (code : string) :
  viteMockServe path localEnabled prodEnabled code
    ∈ createVitePlugins env command mode ->
  (prodEnabled = true <-> command = "build")
  /\ (localEnabled = true
      <-> command <> "build" /\ env !! "VITE_USE_MOCK" = Some "true")
  /\ localEnabled && prodEnabled = false.
Proof.
  unfold createVitePlugins.
  destruct (bool_decide (command = "build")) eqn:Hbuild;
    [apply bool_decide_eq_true in Hbuild|apply bool_decide_eq_false in Hbuild].
  all: destruct (endsWith mode "mock"); cbn.
  all: rewrite ?elem_of_cons, ?elem_of_nil; intros Hin.
  all: repeat (destruct Hin as [[=] | Hin]); try done; subst.
  - by intuition.
  - rewrite bool_decide_eq_true, andb_false_r. by intuition.
Qed.

(** X22. The command matters only through being [build] or not: any two
    commands other than [build] ([serve] among them, whose test the
    function computes and never uses) give the same list. *)
Theorem createVitePlugins_only_build_matters env (command1 command2 mode : string) :
  command1 <> "build" -> command2 <> "build" ->
  createVitePlugins env command1 mode = createVitePlugins env command2 mode.
Proof.
  intros H1 H2. unfold createVitePlugins.
  by rewrite (bool_decide_eq_false_2 _ H1), (bool_decide_eq_false_2 _ H2).
Qed.

(** X23. The script the [html] plugin injects is the icon-font URL built
    from [VITE_FONTICONUUID]; when the environment does not have that
    variable, the URL reads [https://at.alicdn.com/t/undefined.js].  No
    style sheet is injected. *)
Theorem createVitePlugins_injected_script env command mode
    (title : string) (css js : list string) (minify : bool) :
  html title css js minify ∈ createVitePlugins env command mode ->
  css = []
  /\ (forall uuid, env !! "VITE_FONTICONUUID" = Some uuid ->
        js = ["https://at.alicdn.com/t/" +:+ uuid +:+ ".js"])
  /\ (env !! "VITE_FONTICONUUID" = None ->
      js = ["https://at.alicdn.com/t/undefined.js"]).
Proof.
  unfold createVitePlugins.
  destruct (bool_decide (command = "build")), (endsWith mode "mock"); cbn.
  all: rewrite ?elem_of_cons, ?elem_of_nil; intros Hin.
  all: repeat (destruct Hin as [[=] | Hin]); try done; subst.
  all: split_and!; [done|by intros uuid ->|by intros ->].
Qed.

End VitePluginsProperties.

(** * Concrete runs

    The theorems above at the in-memory collaborators. *)

Section Runs.

Import InMemory.

(** The scenarios of the specification, run. *)

Example create_alice_twice :
  let first := createUser service pg new_alice empty_world in
  fst first = Ok (mkDto "U1" "alice" Active [] [])
  /\ outcome (createUser service pg new_alice) (snd first)
     = Throw (new (UserExistsException (Some "alice")))
  /\ outcome (createUserBase service pg new_alice_base) (snd first)
     = Throw (new (UserExistsException (Some "alice"))).
Proof. vm_compute. repeat split. Qed.

Example update_with_empty_partial :
  outcome (updateUser service pg "U1" (Build_UpdateUserRequestDto None None None None))
    two_users
  = Ok (dto_of alice).
Proof. vm_compute. repeat split. Qed.

Example change_password_rotates_hash :
  let changed := changePassword service right_current "U1" two_users in
  fst changed = Ok (dto_of alice)
  /\ table (outside (mem (snd changed))) = [with_password "hash:n3w" alice; bob]
  /\ outcome (changePassword service right_current "U1") (snd changed)
     = Throw (new InvalidCurrentPasswordException).
Proof. vm_compute. repeat split. Qed.

Example block_bob :
  outcome (blockUser service "U2") two_users
  = Ok (mkDto "U2" "bob" Blocked [] []).
Proof. vm_compute. repeat split. Qed.

Example get_missing_user :
  outcome (getUserById service "U9") two_users = Throw (new NotFoundException).
Proof. vm_compute. repeat split. Qed.

(** The theorems at concrete requests. *)

Lemma changePassword_wrong_current_password_run :
  outcome (changePassword service wrong_current "U1") two_users
    = Throw (new InvalidCurrentPasswordException)
  /\ issued (changePassword service wrong_current "U1") two_users
     = [FindOne (FindWhereId "U1") (Ok (Some 1%positive));
        Compare "wrong" "hash:p@ss1" (Ok false)].
Proof.
  edestruct (changePassword_wrong_current_password service wrong_current "U1"
               two_users) as [Hrun _].
  - reflexivity.
  - reflexivity.
  - unfold outcome, issued. rewrite Hrun. split; reflexivity.
Defined.


Lemma create_variants_same_translation_run :
  outcome (createUser service pg new_alice) two_users
    = Throw (new (UserExistsException (Some "alice")))
  /\ outcome (createUserBase service pg new_alice_base) two_users
     = Throw (new (UserExistsException (Some "alice"))).
Proof.
  apply (proj1 (create_variants_same_translation service pg new_alice
                  new_alice_base two_users two_users 1%positive 1%positive
                  created_alice created_alice unique_violation
                  ltac:(discriminate) ltac:(discriminate)
                  ltac:(vm_compute; repeat constructor)
                  ltac:(vm_compute; repeat constructor))).
  reflexivity.
Defined.

Lemma getUsers_empty_page_run :
  outcome (getUsers service first_page) empty_world
    = Throw (new NotFoundException).
Proof.
  edestruct (getUsers_empty_page service first_page empty_world) as [Hrun _].
  - reflexivity.
  - right. left. reflexivity.
  - unfold outcome. rewrite Hrun. reflexivity.
Defined.

Lemma getUsers_error_translation_run :
  outcome (getUsers timing_out first_page) two_users
    = Throw (new RequestTimeoutException).
Proof.
  destruct (proj1 (getUsers_error_translation timing_out first_page two_users)
              (GetUsersAndCount first_page (Throw timeout_error)) timeout_error
              ltac:(vm_compute; repeat constructor) eq_refl)
    as (x & Hout & [(_ & Htimeout & _) | ((entity & Hev) & _)]).
  - rewrite Hout. f_equal. apply Htimeout. reflexivity.
  - discriminate Hev.
Defined.

Lemma blockUser_missing_user_run :
  outcome (blockUser service "U9") two_users = Throw (mkError TypeError None).
Proof.
  edestruct (blockUser_missing_user service "U9" two_users) as [Hrun _].
  - reflexivity.
  - unfold outcome. rewrite Hrun. reflexivity.
Defined.

Lemma updateUser_missing_user_run :
  outcome (updateUser service pg "U9" block_only) two_users
    = Throw (new NotFoundException).
Proof.
  edestruct (updateUser_missing_user service pg "U9" block_only two_users)
    as [Hrun _].
  - reflexivity.
  - unfold outcome. rewrite Hrun. reflexivity.
Defined.

Lemma getUsers_preserves_fetch_order_run :
  exists (userEntities : list ref) (totalUsers : Z) (UserDtos : list UserDto),
    userEntities <> [] /\ totalUsers <> 0
    /\ length UserDtos = length userEntities
    /\ issued (getUsers service first_page) two_users
       = GetUsersAndCount first_page (Ok (Some userEntities, totalUsers))
         :: zip_with (fun entity dto => ToDtoWithRelations entity (Returns dto))
              userEntities UserDtos
         ++ [PaginationOf first_page totalUsers UserDtos
               (Ok (mkPage first_page 2 [dto_of alice; dto_of bob]))].
Proof.
  apply (getUsers_preserves_fetch_order service first_page two_users).
  reflexivity.
Defined.

Lemma updateUser_unique_violation_run :
  outcome (updateUser (with_save conflicting_save service) pg "U2" block_only)
    two_users
  = Throw (new (UserExistsException None)).
Proof.
  apply (proj1 (updateUser_unique_violation (with_save conflicting_save service)
                  pg "U2" block_only two_users 1%positive
                  (with_status Blocked bob) unique_violation
                  ltac:(vm_compute; repeat constructor) eq_refl)).
Defined.

Lemma response_dto_source_run :
  (issued (changePassword (with_save save_reloading service) right_current "U1")
     two_users
   = [FindOne (FindWhereId "U1") (Ok (Some 1%positive));
      Compare "p@ss1" "hash:p@ss1" (Ok true);
      Encrypt "n3w" (Ok "hash:n3w");
      Save 1%positive (with_password "hash:n3w" alice) (Ok 2%positive);
      ToDto 1%positive (Returns (dto_of alice))]
   /\ outcome (changePassword (with_save save_reloading service) right_current
                "U1") two_users
      = Ok (dto_of alice))
  /\ (issued (blockUser (with_save save_reloading service) "U2") two_users
      = [FindOne (FindId "U2") (Ok (Some 1%positive));
         Save 1%positive (with_status Blocked bob) (Ok 2%positive);
         ToDto 1%positive (Returns (dto_of (with_status Blocked bob)))]
      /\ outcome (blockUser (with_save save_reloading service) "U2") two_users
         = Ok (dto_of (with_status Blocked bob)))
  /\ (issued (createUser (with_save save_reloading service) pg new_alice)
        empty_world
      = [ToCreateEntity new_alice (Ok 1%positive);
         Encrypt "p@ss1" (Ok "hash:p@ss1");
         Save 1%positive created_alice (Ok 2%positive);
         ToDto 2%positive (Returns reloaded_alice_dto)]
      /\ outcome (createUser (with_save save_reloading service) pg new_alice)
           empty_world
         = Ok reloaded_alice_dto)
  /\ (issued (updateUser (with_save save_reloading service) pg "U2" block_only)
        two_users
      = [FindOne (FindId "U2") (Ok (Some 1%positive));
         ToUpdateEntity 1%positive block_only (Ok 1%positive);
         Save 1%positive (with_status Blocked bob) (Ok 2%positive);
         ToDto 2%positive (Returns (mkDto "U2" "bob" Blocked ["user"] []))]
      /\ outcome (updateUser (with_save save_reloading service) pg "U2"
                   block_only) two_users
         = Ok (mkDto "U2" "bob" Blocked ["user"] [])).
Proof.
  split; [|split; [|split]].
  - edestruct (proj1 (proj2 (proj2 (proj2 (proj2
                 (response_dto_source (with_save save_reloading service) pg
                    right_current "U1" new_alice block_only two_users
                    1%positive (Returns (dto_of alice))))))))
      as [Hlog Hout].
    1-4: reflexivity.
    split; [exact Hlog|]. apply Hout. reflexivity.
  - edestruct (proj1 (proj2 (proj2 (proj2 (proj2 (proj2
                 (response_dto_source (with_save save_reloading service) pg
                    right_current "U2" new_alice block_only two_users
                    1%positive (Returns (dto_of alice)))))))))
      as [Hlog Hout].
    1-2: reflexivity.
    split; [exact Hlog|]. apply Hout. reflexivity.
  - edestruct (proj1 (proj2 (proj2 (proj2 (proj2 (proj2 (proj2
                 (response_dto_source (with_save save_reloading service) pg
                    right_current "U2" new_alice block_only empty_world
                    2%positive (Returns (dto_of alice))))))))))
      as [Hlog Hout].
    1-3: reflexivity.
    split; [exact Hlog|]. apply Hout. reflexivity.
  - edestruct (proj2 (proj2 (proj2 (proj2 (proj2 (proj2 (proj2
                 (response_dto_source (with_save save_reloading service) pg
                    right_current "U2" new_alice block_only two_users
                    2%positive (Returns (dto_of alice))))))))))
      as [Hlog Hout].
    1-3: reflexivity.
    split; [exact Hlog|]. apply Hout. reflexivity.
Defined.

End Runs.

(** * Concrete runs of the further properties *)

Section MoreRuns.

Import InMemory Faulty VitePlugins.

Lemma getUserById_missing_user_run :
  outcome (getUserById service "U9") two_users = Throw (new NotFoundException).
Proof.
  unfold outcome. erewrite getUserById_missing_user; reflexivity.
Defined.

Lemma getUserById_failure_not_translated_run :
  outcome (getUserById (findOne_fails timeout_error) "U1") two_users
    = Throw timeout_error.
Proof.
  apply (getUserById_failure_not_translated (findOne_fails timeout_error) "U1"
           two_users
           (FindOne (FindIdRelations "U1" ["permissions"; "roles"])
              (Throw timeout_error))).
  - vm_compute. repeat constructor.
  - reflexivity.
Defined.

Lemma getUserById_returns_mapped_run :
  outcome (getUserById service "U1") two_users = Ok (dto_of alice).
Proof.
  apply (proj2 (getUserById_returns_mapped service "U1" two_users (dto_of alice))).
  exists 1%positive. reflexivity.
Defined.

Lemma changePassword_missing_user_run :
  outcome (changePassword service right_current "U9") two_users
    = Throw (new NotFoundException).
Proof.
  unfold outcome. erewrite changePassword_missing_user; reflexivity.
Defined.

Lemma changePassword_compare_failure_run :
  outcome (changePassword (compare_fails other_error) right_current "U1")
    two_users
  = Throw other_error.
Proof.
  apply (proj1 (changePassword_compare_failure (compare_fails other_error)
                  right_current "U1" two_users "p@ss1" "hash:p@ss1" other_error
                  ltac:(vm_compute; repeat constructor))).
Defined.

Lemma changePassword_saves_after_verification_run :
  exists m1 m2 hash m3,
    repo_findOne service (FindWhereId "U1") (mem two_users)
      = (Ok (Some 1%positive), m1)
    /\ hash_compare service "p@ss1" (password (objects m1 !!! 1%positive)) m1
       = (Ok true, m2)
    /\ hash_encrypt service "n3w" m2 = (Ok hash, m3)
    /\ with_password "hash:n3w" alice
       = with_password hash (objects m3 !!! 1%positive).
Proof.
  apply (changePassword_saves_after_verification service right_current "U1"
           two_users 1%positive (with_password "hash:n3w" alice)
           (Ok 1%positive)).
  vm_compute. repeat constructor.
Defined.

Lemma changePassword_persistence_failure_run :
  outcome (changePassword (save_fails unique_violation) right_current "U1")
    two_users
  = Throw (new InternalServerErrorException).
Proof.
  apply (changePassword_persistence_failure (save_fails unique_violation)
           right_current "U1" two_users
           (Save 1%positive (with_password "hash:n3w" alice)
              (Throw unique_violation))
           unique_violation).
  - vm_compute. repeat constructor.
  - right. by eexists _, _.
Defined.

Lemma blockUser_saves_blocked_run :
  exists m1,
    repo_findOne service (FindId "U2") (mem two_users)
      = (Ok (Some 1%positive), m1)
    /\ with_status Blocked bob = with_status Blocked (objects m1 !!! 1%positive).
Proof.
  apply (blockUser_saves_blocked service "U2" two_users 1%positive
           (with_status Blocked bob) (Ok 1%positive)).
  vm_compute. repeat constructor.
Defined.

Lemma blockUser_persistence_failure_run :
  outcome (blockUser (save_fails timeout_error) "U2") two_users
    = Throw (new RequestTimeoutException).
Proof.
  apply (blockUser_persistence_failure (save_fails timeout_error) "U2"
           two_users 1%positive (with_status Blocked bob) timeout_error).
  vm_compute. repeat constructor.
Defined.

Lemma findOne_failure_not_translated_run :
  outcome (blockUser (findOne_fails timeout_error) "U2") two_users
    = Throw timeout_error
  /\ issued (blockUser (findOne_fails timeout_error) "U2") two_users
     = [FindOne (FindId "U2") (Throw timeout_error)].
Proof.
  apply (proj2 (proj2 (findOne_failure_not_translated
                         (findOne_fails timeout_error) pg right_current "U2"
                         block_only two_users (FindId "U2") timeout_error))).
  vm_compute. repeat constructor.
Defined.

Lemma updateUser_failure_translation_run :
  outcome (updateUser (save_fails foreign_key_violation) pg "U2" block_only)
    two_users
  = Throw (new ForeignKeyConflictException).
Proof.
  apply (proj1 (updateUser_failure_translation
                  (save_fails foreign_key_violation) pg "U2" block_only
                  two_users
                  (Save 1%positive (with_status Blocked bob)
                     (Throw foreign_key_violation))
                  foreign_key_violation
                  ltac:(discriminate) ltac:(discriminate)
                  ltac:(vm_compute; repeat constructor)
                  ltac:(right; by eexists _, _))).
  left. reflexivity.
Defined.

Lemma update_and_block_never_hash_run :
  is_HashHelper
    (Save 1%positive (with_status Blocked bob) (Ok 1%positive) : Call) = false.
Proof.
  apply (proj2 (update_and_block_never_hash service pg "U2" block_only
                  two_users _)).
  vm_compute. repeat constructor.
Defined.

Lemma updateUser_saves_merged_run :
  exists found m1 m2,
    repo_findOne service (FindId "U2") (mem two_users) = (Ok (Some found), m1)
    /\ mapper_toUpdateEntity service found block_only m1 = (Ok 1%positive, m2)
    /\ with_status Blocked bob = objects m2 !!! 1%positive.
Proof.
  apply (updateUser_saves_merged service pg "U2" block_only two_users
           1%positive (with_status Blocked bob) (Ok 1%positive)).
  vm_compute. repeat constructor.
Defined.

Lemma create_failure_before_save_run :
  saves (issued (createUser (encrypt_fails timeout_error) pg new_alice)
           empty_world) = 0%nat
  /\ outcome (createUser (encrypt_fails timeout_error) pg new_alice) empty_world
     = outcome (create_catch (A := UserDto) pg (Some "alice") timeout_error)
         empty_world.
Proof.
  apply (proj1 (create_failure_before_save (encrypt_fails timeout_error) pg
                  new_alice new_alice_base empty_world
                  (Encrypt "p@ss1" (Throw timeout_error)) timeout_error)).
  - vm_compute. repeat constructor.
  - right. by eexists.
Defined.

Lemma createUserBase_logs_conflicts_run :
  LoggerError foreign_key_violation
    ∈ issued (createUserBase (save_fails foreign_key_violation) pg new_alice_base)
        empty_world.
Proof.
  apply (proj1 (createUserBase_logs_conflicts
                  (save_fails foreign_key_violation) pg new_alice new_alice_base
                  empty_world)
           1%positive created_alice foreign_key_violation).
  - vm_compute. repeat constructor.
  - reflexivity.
  - left. reflexivity.
Defined.


Lemma getUsers_rejections_run :
  new RequestTimeoutException = new NotFoundException
  \/ new RequestTimeoutException = new RequestTimeoutException
  \/ new RequestTimeoutException = new InternalServerErrorException.
Proof.
  apply (getUsers_rejections timing_out first_page two_users). reflexivity.
Defined.

Lemma createVitePlugins_mock_switches_run :
  (false = true <-> "serve" = "build")
  /\ (true = true
      <-> "serve" <> "build"
          /\ ({["VITE_USE_MOCK" := "true"]} : gmap string string)
               !! "VITE_USE_MOCK" = Some "true")
  /\ true && false = false.
Proof.
  apply (createVitePlugins_mock_switches {["VITE_USE_MOCK" := "true"]}
           "serve" "development-mock" "mock" true false injectCode_literal).
  vm_compute. repeat constructor.
Defined.

Lemma createVitePlugins_only_build_matters_run :
  createVitePlugins ∅ "serve" "mock" = createVitePlugins ∅ "preview" "mock".
Proof.
  apply createVitePlugins_only_build_matters; discriminate.
Defined.

Lemma createVitePlugins_injected_script_run :
  ([] : list string) = []
  /\ (forall uuid, (∅ : gmap string string) !! "VITE_FONTICONUUID" = Some uuid ->
        ["https://at.alicdn.com/t/undefined.js"]
        = ["https://at.alicdn.com/t/" +:+ uuid +:+ ".js"])
  /\ ((∅ : gmap string string) !! "VITE_FONTICONUUID" = None ->
      ["https://at.alicdn.com/t/undefined.js"]
      = ["https://at.alicdn.com/t/undefined.js"]).
Proof.
  apply (createVitePlugins_injected_script ∅ "build" "production" "爱线索分享"
           [] ["https://at.alicdn.com/t/undefined.js"] true).
  vm_compute. repeat constructor.
Defined.

Example createVitePlugins_build_with_mock :
  createVitePlugins {["VITE_FONTICONUUID" := "font_1"]} "build" "staging-mock"
  = [vue "Diff"; vueJsx;
     html "爱线索分享" [] ["https://at.alicdn.com/t/font_1.js"] true;
     VitePWA "autoUpdate"; configVisualizerConfig;
     viteMockServe "mock" false true injectCode_literal].
Proof. vm_compute. reflexivity. Qed.

Example createVitePlugins_serve_without_mock :
  createVitePlugins ∅ "serve" "development"
  = [vue "Diff"; vueJsx;
     html "爱线索分享" [] ["https://at.alicdn.com/t/undefined.js"] true].
Proof. vm_compute. reflexivity. Qed.

End MoreRuns.
